(** * prepare_dataset/prepare.py: sliding-window sampling and the
      train/validation block partitioner

    A shallow embedding of [MLTrader/prepare_dataset/prepare.py].

    - A pandas DataFrame is a list of rows ([Bar]); only the columns the
      program reads are kept: the two timestamp columns it addresses by
      name and the four columns at positions 2..5 that
      [extract_open_close_high_low] slices out.
    - Timestamps are integers (milliseconds since the epoch, the unit of
      the CSV); [pd.Timedelta(days=n)] is [n * 86400000].
    - A three-dimensional numpy array is its trailing shape together with
      the list of its axis-0 items, so that an array with no item still has
      a shape and [np.concatenate] can refuse operands whose trailing
      shapes differ.
    - Python exceptions are an error monad; the value a function returns
      is tagged with its run-time class where the program can return
      values of more than one class.
    - [split_train_validation] takes the frame that [pd.read_csv] and the
      two [pd.to_datetime] conversions produce; reading the file, the
      [print] of the loop and the [__main__] block that saves the arrays
      are not modelled. *)

From Stdlib Require Import ZArith List Bool Lia.
From Equations Require Import Equations.
Import ListNotations.

Open Scope Z_scope.

(** ** Module-level constants *)

Definition SPLIT_PER_DAY : Z := 23.
Definition TRAINING_DAY : Z := 20.
Definition VALIDATION_DAY : Z := SPLIT_PER_DAY - TRAINING_DAY.

Definition BAR_PER_DATAPOINT : Z := 2 * 24 * (60 / 15).
Definition OUTPUT_BAR_PER_DATAPOINT : Z := 4 * (60 / 15).
Definition INPUT_BAR_PER_DATAPOINT : Z :=
  BAR_PER_DATAPOINT - OUTPUT_BAR_PER_DATAPOINT.

Definition DIMENSION_PER_BAR : Z := 4.

(** ** Exceptions *)

Inductive exn : Set := TypeError | ValueError.

Inductive result (A : Type) : Type :=
| Ok (a : A)
| Raise (e : exn).
Arguments Ok {A} a.
Arguments Raise {A} e.

Definition bind {A B : Type} (m : result A) (k : A -> result B) : result B :=
  match m with
  | Ok a => k a
  | Raise e => Raise e
  end.

Notation "x <- m ;; k" := (bind m (fun x => k))
  (at level 61, m at next level, right associativity).

(** A [for] loop whose body rebinds one variable and may raise. *)
Fixpoint for_each {A S : Type} (body : S -> A -> result S)
    (xs : list A) (s : S) : result S :=
  match xs with
  | [] => Ok s
  | x :: xs' => s' <- body s x ;; for_each body xs' s'
  end.

(** ** Python built-ins used by the program *)

Definition len {A : Type} (l : list A) : Z := Z.of_nat (length l).

(** [range(start, stop, step)] for a positive step: the values
    [start, start + step, ...] that stay below [stop]. *)
Fixpoint range_from (fuel : nat) (i stop step : Z) : list Z :=
  match fuel with
  | O => []
  | S fuel' =>
      if i <? stop then i :: range_from fuel' (i + step) stop step else []
  end.

Definition range (start stop step : Z) : list Z :=
  range_from (Z.to_nat (stop - start)) start stop step.

(** A slice bound as Python normalises it against a length: a negative
    bound counts from the end, and every bound is clamped to [0, n]. *)
Definition slice_bound (n : Z) (default : Z) (i : option Z) : Z :=
  match i with
  | None => default
  | Some i => if i <? 0 then Z.max 0 (i + n) else Z.min i n
  end.

(** [l[lo:hi]] and [df.iloc[lo:hi]]. *)
Definition iloc {A : Type} (l : list A) (lo hi : option Z) : list A :=
  let n := len l in
  let a := slice_bound n 0 lo in
  let b := slice_bound n n hi in
  firstn (Z.to_nat (b - a)) (skipn (Z.to_nat a) l).

(** [Series.min()] and [Series.max()]; [None] is [NaT], the result on a
    column without rows. *)
Definition series_min (s : list Z) : option Z :=
  match s with
  | [] => None
  | t :: s' => Some (fold_left Z.min s' t)
  end.

Definition series_max (s : list Z) : option Z :=
  match s with
  | [] => None
  | t :: s' => Some (fold_left Z.max s' t)
  end.

Definition Timedelta_days (days : Z) : Z := days * 86400000.

Section Prepare.

(** The element type of the arrays ([np.float64] in the program). No
    arithmetic is done on the elements: they are only copied. *)
Variable price : Type.

(** ** Data model *)

Record Bar : Type := mkBar {
  OpenTime : Z;
  CloseTime : Z;
  col2 : price;  (* open  *)
  col3 : price;  (* close *)
  col4 : price;  (* high  *)
  col5 : price   (* low   *)
}.

Definition DataFrame : Type := list Bar.

(** An array of shape [(N, fst dims, snd dims)] with [N] the number of
    items. *)
Record ndarray : Type := mkArray {
  dims : Z * Z;
  items : list (list (list price))
}.

Definition shape (a : ndarray) : Z * Z * Z :=
  (len (items a), fst (dims a), snd (dims a)).

Definition dims_eqb (d e : Z * Z) : bool :=
  (fst d =? fst e) && (snd d =? snd e).

(** [np.empty((0, rows, cols))]. *)
Definition np_empty0 (rows cols : Z) : ndarray :=
  {| dims := (rows, cols); items := [] |}.

(** [np.concatenate((a, b), axis=0)]: the operands must agree on every
    axis but the first. *)
Definition np_concatenate (a b : ndarray) : result ndarray :=
  if dims_eqb (dims a) (dims b)
  then Ok {| dims := dims a; items := items a ++ items b |}
  else Raise ValueError.

Record Dataset : Type := mkDataset {
  X : ndarray;
  Y : ndarray
}.

(** What [sliding_window_sample_datapoints] can hand back: the list
    literal [[]] or a [Dataset]. *)
Inductive pyvalue : Type :=
| EmptyList
| IsDataset (d : Dataset).

(** What a call of [__add__] hands back. *)
Inductive add_return : Type :=
| NotImplemented
| Returned (d : Dataset).

Definition Dataset__add__ (self : Dataset) (other : pyvalue)
  : result add_return :=
  match other with
  | IsDataset other =>
      x <- np_concatenate (X self) (X other) ;;
      y <- np_concatenate (Y self) (Y other) ;;
      Ok (Returned {| X := x; Y := y |})
  | EmptyList => Ok NotImplemented
  end.

(** The expression [self + other] with [self] a [Dataset]: Python calls
    [Dataset.__add__]; on [NotImplemented] it looks for [__radd__] on the
    right operand, which a list does not define (and a [Dataset] neither),
    and raises [TypeError]. *)
Definition add (self : Dataset) (other : pyvalue) : result Dataset :=
  r <- Dataset__add__ self other ;;
  match r with
  | Returned d => Ok d
  | NotImplemented => Raise TypeError
  end.

Definition empty_dataset : Dataset :=
  {| X := np_empty0 INPUT_BAR_PER_DATAPOINT DIMENSION_PER_BAR;
     Y := np_empty0 OUTPUT_BAR_PER_DATAPOINT DIMENSION_PER_BAR |}.

(** [ms_timestamp_to_datetime]: the same instant as a [datetime]. The
    model counts milliseconds without a bound; it is the program on the
    instants a [datetime] can hold (see [in_datetime_range]), outside of
    which [to_pydatetime] and [datetime + Timedelta] raise. *)
Definition ms_timestamp_to_datetime (ms : Z) : Z := ms.

(** [df.values[:, 2:6]], one row of four values per bar. *)
Definition values_2_6 (b : Bar) : list price :=
  [col2 b; col3 b; col4 b; col5 b].

(** [df.values[:, 2:6].reshape((1, -1, DIMENSION_PER_BAR))]: the rows
    already have [DIMENSION_PER_BAR] entries, so the single item of the
    result is the list of rows, and the [-1] axis is the number of rows
    (0 for a frame without rows: the shape is then [(1, 0, 4)]). *)
Definition extract_open_close_high_low (df : DataFrame) : ndarray :=
  {| dims := (len df, DIMENSION_PER_BAR); items := [map values_2_6 df] |}.

(** ** The window sampler *)

Definition sample_window (df : DataFrame) (dataset : Dataset)
    (start_idx : Z) : result Dataset :=
  let data_point :=
    iloc df (Some start_idx) (Some (start_idx + BAR_PER_DATAPOINT)) in
  let input_data :=
    extract_open_close_high_low
      (iloc data_point None (Some INPUT_BAR_PER_DATAPOINT)) in
  let output_data :=
    extract_open_close_high_low
      (iloc data_point (Some INPUT_BAR_PER_DATAPOINT) None) in
  add dataset (IsDataset {| X := input_data; Y := output_data |}).

Definition sliding_window_sample_datapoints (df : DataFrame)
  : result pyvalue :=
  if len df <? BAR_PER_DATAPOINT then Ok EmptyList
  else
    dataset <-
      for_each (sample_window df)
        (range 0 (len df - BAR_PER_DATAPOINT + 1) 3) empty_dataset ;;
    Ok (IsDataset dataset).

(** ** The block partitioner *)

Definition training_df (df : DataFrame) (current_date : Z) : DataFrame :=
  let training_start := current_date in
  let training_end := current_date + Timedelta_days TRAINING_DAY in
  filter (fun b => (training_start <=? OpenTime b)
                   && (CloseTime b <? training_end)) df.

Definition validation_df (df : DataFrame) (current_date : Z) : DataFrame :=
  let validation_start := current_date + Timedelta_days TRAINING_DAY in
  let validation_end := current_date + Timedelta_days SPLIT_PER_DAY in
  filter (fun b => (validation_start <=? OpenTime b)
                   && (CloseTime b <? validation_end)) df.

(** One pass through the body of the [while] loop, up to the update of
    [current_date]: the new values of [training_data] and
    [validation_data]. The [print] of the body is not modelled. *)
Definition block_body (df : DataFrame) (current_date : Z)
    (acc : Dataset * Dataset) : result (Dataset * Dataset) :=
  let '(training_data, validation_data) := acc in
  let training_df := training_df df current_date in
  let validation_df := validation_df df current_date in
  t <- sliding_window_sample_datapoints training_df ;;
  training_data <- add training_data t ;;
  v <- sliding_window_sample_datapoints validation_df ;;
  validation_data <- add validation_data v ;;
  Ok (training_data, validation_data).

Equations? while_blocks (df : DataFrame) (end_date current_date : Z)
    (acc : Dataset * Dataset) : result (Dataset * Dataset)
    by wf (Z.to_nat ((end_date - current_date)
                     / Timedelta_days SPLIT_PER_DAY)) lt :=
  while_blocks df end_date current_date acc
    with Z_le_gt_dec (current_date + Timedelta_days SPLIT_PER_DAY) end_date := {
    | left _ with block_body df current_date acc := {
        | Ok acc' =>
            while_blocks df end_date
              (current_date + Timedelta_days SPLIT_PER_DAY) acc'
        | Raise e => Raise e }
    | right _ => Ok acc }.
Proof.
  replace (end_date - (current_date + 1987200000))
    with (end_date - current_date + (-1) * 1987200000) by ring.
  rewrite Z.div_add by lia.
  assert (1 <= (end_date - current_date) / 1987200000)
    by (apply Z.div_le_lower_bound; lia).
  lia.
Qed.

(** [split_train_validation] after the CSV has been read and its two
    timestamp columns converted. On a frame without rows [min()] and
    [max()] are [NaT], the loop guard compares [NaT] and is false, and the
    loop body never runs. *)
Definition split_train_validation (df : DataFrame)
  : result (Dataset * Dataset) :=
  let training_data := empty_dataset in
  let validation_data := empty_dataset in
  match series_min (map OpenTime df), series_max (map CloseTime df) with
  | Some start, Some stop =>
      let start_date := ms_timestamp_to_datetime start in
      let end_date := ms_timestamp_to_datetime stop in
      let current_date := start_date in
      while_blocks df end_date current_date (training_data, validation_data)
  | _, _ => Ok (training_data, validation_data)
  end.

End Prepare.

Arguments mkBar {price}.
Arguments OpenTime {price}.
Arguments CloseTime {price}.
Arguments col2 {price}.
Arguments col3 {price}.
Arguments col4 {price}.
Arguments col5 {price}.
Arguments mkArray {price}.
Arguments dims {price}.
Arguments items {price}.
Arguments shape {price}.
Arguments np_empty0 {price}.
Arguments np_concatenate {price}.
Arguments mkDataset {price}.
Arguments X {price}.
Arguments Y {price}.
Arguments EmptyList {price}.
Arguments IsDataset {price}.
Arguments NotImplemented {price}.
Arguments Returned {price}.
Arguments Dataset__add__ {price}.
Arguments add {price}.
Arguments empty_dataset {price}.
Arguments values_2_6 {price}.
Arguments extract_open_close_high_low {price}.
Arguments sample_window {price}.
Arguments sliding_window_sample_datapoints {price}.
Arguments training_df {price}.
Arguments validation_df {price}.
Arguments block_body {price}.
Arguments while_blocks {price}.
Arguments split_train_validation {price}.

(** ** Vocabulary of the statements *)

(** The number of samples in what the sampler hands back: [len] of the
    list, the length of axis 0 of [X] for a [Dataset]. *)
Definition sample_count {price : Type} (v : pyvalue price) : Z :=
  match v with
  | EmptyList => 0
  | IsDataset d => len (items (X d))
  end.

(** [len(X) == len(Y)]. *)
Definition paired {price : Type} (d : Dataset price) : Prop :=
  len (items (X d)) = len (items (Y d)).

(** The shapes the class documents: [X] is [N x 176 x 4] and [Y] is
    [N x 16 x 4]. *)
Definition well_shaped {price : Type} (d : Dataset price) : Prop :=
  dims (X d) = (INPUT_BAR_PER_DATAPOINT, DIMENSION_PER_BAR) /\
  dims (Y d) = (OUTPUT_BAR_PER_DATAPOINT, DIMENSION_PER_BAR).

(** An item of an array really has [rows] rows of [cols] entries. *)
Definition item_has_shape {price : Type} (rows cols : Z)
    (item : list (list price)) : Prop :=
  len item = rows /\ Forall (fun row => len row = cols) item.

(** The number of whole blocks between [current_date] and [end_date],
    and their start dates: the blocks the [while] loop goes through when
    it is entered at [current_date] and no pass raises. *)
Definition block_count (current_date end_date : Z) : nat :=
  Z.to_nat ((end_date - current_date) / Timedelta_days SPLIT_PER_DAY).

Definition block_starts (current_date end_date : Z) : list Z :=
  map (fun k => current_date + Timedelta_days SPLIT_PER_DAY * Z.of_nat k)
      (seq 0 (block_count current_date end_date)).

(** The loop as a fold of its body over given start dates. *)
Definition run_blocks {price : Type} (df : DataFrame price)
    (starts : list Z) (acc : Dataset price * Dataset price)
  : result (Dataset price * Dataset price) :=
  for_each (fun acc current_date => block_body df current_date acc)
           starts acc.

(** The rows of the input and of the output sub-window of the window
    that starts at row [s]: the four price columns of [df[s : s+176]] and
    of [df[s+176 : s+192]]. *)
Definition input_rows {price : Type} (df : DataFrame price) (s : Z)
  : list (list price) :=
  map values_2_6 (iloc df (Some s) (Some (s + INPUT_BAR_PER_DATAPOINT))).

Definition output_rows {price : Type} (df : DataFrame price) (s : Z)
  : list (list price) :=
  map values_2_6
      (iloc df (Some (s + INPUT_BAR_PER_DATAPOINT))
               (Some (s + BAR_PER_DATAPOINT))).

(** The [Dataset] the sampler builds from a frame with enough rows. *)
Definition sampled {price : Type} (df : DataFrame price) : Dataset price :=
  let starts := range 0 (len df - BAR_PER_DATAPOINT + 1) 3 in
  {| X := {| dims := (INPUT_BAR_PER_DATAPOINT, DIMENSION_PER_BAR);
             items := map (input_rows df) starts |};
     Y := {| dims := (OUTPUT_BAR_PER_DATAPOINT, DIMENSION_PER_BAR);
             items := map (output_rows df) starts |} |}.

(** [a]'s samples followed by [b]'s, in [X] and in [Y]. *)
Definition concat {price : Type} (a b : Dataset price) : Dataset price :=
  {| X := {| dims := dims (X a); items := items (X a) ++ items (X b) |};
     Y := {| dims := dims (Y a); items := items (Y a) ++ items (Y b) |} |}.

(** The block that starts at [current_date] has a slice with fewer rows
    than one window. *)
Definition short_slice {price : Type} (df : DataFrame price)
    (current_date : Z) : Prop :=
  len (training_df df current_date) < BAR_PER_DATAPOINT \/
  len (validation_df df current_date) < BAR_PER_DATAPOINT.

(** The sizes of the two results of the partitioner, when it returns. *)
Definition sizes {price : Type} (r : result (Dataset price * Dataset price))
  : option (Z * Z) :=
  match r with
  | Ok (training_data, validation_data) =>
      Some (len (items (X training_data)), len (items (X validation_data)))
  | Raise _ => None
  end.

(** The frame with the price columns of every bar that closes at
    [cutoff] or later overwritten with [p]. *)
Definition overwrite_from {price : Type} (cutoff : Z) (p : price)
    (df : DataFrame price) : DataFrame price :=
  map (fun b => if cutoff <=? CloseTime b
                then mkBar (OpenTime b) (CloseTime b) p p p p
                else b) df.

(** A bar moved in time by [t], prices unchanged. *)
Definition shift_time {price : Type} (t : Z) (b : Bar price) : Bar price :=
  mkBar (t + OpenTime b) (t + CloseTime b) (col2 b) (col3 b) (col4 b) (col5 b).

(** ** Test data *)

Definition minutes_15 : Z := 15 * 60 * 1000.

(** [n] bars at a 15-minute interval from [t0]; bar [i] opens at
    [t0 + i * 15min] and closes [width] later. *)
Definition synthetic_bars (n : nat) (t0 width : Z) : DataFrame Z :=
  map (fun i => let o := t0 + minutes_15 * Z.of_nat i in
                mkBar o (o + width) (Z.of_nat i) 0 0 0)
      (seq 0 n).

(** 2208 bars, each closing when the next opens: the span from the
    first open to the last close is exactly 23 days. *)
Definition exact_span_bars (t0 : Z) : DataFrame Z :=
  synthetic_bars 2208 t0 minutes_15.

(** 2208 and 2209 bars, each closing one millisecond before the next
    opens. *)
Definition kline_bars_2208 (t0 : Z) : DataFrame Z :=
  synthetic_bars 2208 t0 (minutes_15 - 1).

Definition kline_bars_2209 (t0 : Z) : DataFrame Z :=
  synthetic_bars 2209 t0 (minutes_15 - 1).

(** Three bars around one block: the second closes exactly at the
    training/validation seam, the third closes after the block. *)
Definition seam_bars : DataFrame Z :=
  [ mkBar 0 minutes_15 1 2 3 4;
    mkBar (Timedelta_days 20 - minutes_15) (Timedelta_days 20) 5 6 7 8;
    mkBar (Timedelta_days 23) (Timedelta_days 23 + minutes_15) 9 10 11 12 ].

(** Frames of 191, 192 and 200 bars, and one of 2300 bars that holds
    one block and a trailing span. *)
Definition bars_191 : DataFrame Z := synthetic_bars 191 0 minutes_15.
Definition bars_192 : DataFrame Z := synthetic_bars 192 0 minutes_15.
Definition bars_200 : DataFrame Z := synthetic_bars 200 0 minutes_15.
Definition kline_bars_2300 : DataFrame Z :=
  synthetic_bars 2300 0 (minutes_15 - 1).

(** What the partitioner sees of a frame: the two ends of its span, the
    sizes of the two slices of the block that starts at [cursor], and the
    sizes of the two results. *)
Record summary : Type := mkSummary {
  first_open : option Z;
  last_close : option Z;
  training_rows : Z;
  validation_rows : Z;
  result_sizes : option (Z * Z)
}.

Definition summarise (df : DataFrame Z) (cursor : Z) : summary :=
  {| first_open := series_min (map OpenTime df);
     last_close := series_max (map CloseTime df);
     training_rows := len (training_df df cursor);
     validation_rows := len (validation_df df cursor);
     result_sizes := sizes (split_train_validation df) |}.

Definition shift_summary (t : Z) (s : summary) : summary :=
  {| first_open := option_map (Z.add t) (first_open s);
     last_close := option_map (Z.add t) (last_close s);
     training_rows := training_rows s;
     validation_rows := validation_rows s;
     result_sizes := result_sizes s |}.

(** ** Further vocabulary *)

(** The first and the last millisecond a [datetime] can hold:
    0001-01-01 00:00:00.000 and 9999-12-31 23:59:59.999. *)
Definition datetime_min : Z := -62135596800000.
Definition datetime_max : Z := 253402300799999.

(** Every instant of the frame is one a [datetime] can hold, and so is
    the instant 23 days later. *)
Definition in_datetime_range {price : Type} (df : DataFrame price) : Prop :=
  forall b, In b df ->
    datetime_min <= OpenTime b /\
    OpenTime b + Timedelta_days SPLIT_PER_DAY <= datetime_max /\
    datetime_min <= CloseTime b /\
    CloseTime b + Timedelta_days SPLIT_PER_DAY <= datetime_max.

(** [sum(zs)]. *)
Definition total (zs : list Z) : Z := fold_right Z.add 0 zs.

(** The number of leading rows of a frame of [L >= 192] rows that some
    window of the sampler covers. *)
Definition rows_used (L : Z) : Z :=
  BAR_PER_DATAPOINT + 3 * ((L - BAR_PER_DATAPOINT) / 3).

(** The samples of the blocks that start at [starts], block after
    block, for a way [slice] of cutting a block out of the frame. *)
Definition samples_of_blocks {price : Type}
    (slice : Z -> DataFrame price) (starts : list Z) : Dataset price :=
  fold_left concat (map (fun c => sampled (slice c)) starts) empty_dataset.

(** 200 bars whose four price columns all differ: bar [i] has the
    prices [4i], [4i + 1], [4i + 2] and [4i + 3] in the columns 2 to 5. *)
Definition priced_bars_200 : DataFrame Z :=
  map (fun i => let o := minutes_15 * Z.of_nat i in
                mkBar o (o + minutes_15)
                      (4 * Z.of_nat i) (4 * Z.of_nat i + 1)
                      (4 * Z.of_nat i + 2) (4 * Z.of_nat i + 3))
      (seq 0 200).

(** The bars of [bars_200] with other timestamps: bar [i] opens at
    [2 * i * 15min] and closes a millisecond later, so that half of the
    time between two bars is missing. *)
Definition retimed_200 : DataFrame Z :=
  map (fun b => mkBar (2 * OpenTime b) (2 * OpenTime b + 1)
                      (col2 b) (col3 b) (col4 b) (col5 b))
      bars_200.

(** The frame with the price columns of every bar that [P] selects
    overwritten with [p]. *)
Definition overwrite_where {price : Type} (P : Bar price -> bool) (p : price)
    (df : DataFrame price) : DataFrame price :=
  map (fun b => if P b
                then mkBar (OpenTime b) (CloseTime b) p p p p
                else b) df.

(** The bars that close exactly 20 days after [t0]. *)
Definition closes_at_seam (t0 : Z) (b : Bar Z) : bool :=
  CloseTime b =? t0 + Timedelta_days 20.

(** ** Lemmas on the built-ins *)

Lemma fold_min_spec (l : list Z) : forall a m,
  fold_left Z.min l a = m ->
  (m = a \/ In m l) /\ m <= a /\ forall x, In x l -> m <= x.
Proof.
  induction l as [|y l IH]; intros a m Hm; cbn [fold_left In] in *.
  - subst m. split; [now left|]. split; [lia | intros x []].
  - destruct (IH (Z.min a y) m Hm) as [Hin [Hle Hall]].
    split; [|split].
    + destruct Hin as [Hin|Hin]; [|now right; right].
      destruct (Z.min_spec a y) as [[_ Hy]|[_ Hy]]; rewrite Hy in Hin;
        [now left | right; left; now symmetry].
    + lia.
    + intros x [<-|Hx]; [lia | now apply Hall].
Qed.

Lemma fold_max_spec (l : list Z) : forall a m,
  fold_left Z.max l a = m ->
  (m = a \/ In m l) /\ a <= m /\ forall x, In x l -> x <= m.
Proof.
  induction l as [|y l IH]; intros a m Hm; cbn [fold_left In] in *.
  - subst m. split; [now left|]. split; [lia | intros x []].
  - destruct (IH (Z.max a y) m Hm) as [Hin [Hle Hall]].
    split; [|split].
    + destruct Hin as [Hin|Hin]; [|now right; right].
      destruct (Z.max_spec a y) as [[_ Hy]|[_ Hy]]; rewrite Hy in Hin;
        [right; left; now symmetry | now left].
    + lia.
    + intros x [<-|Hx]; [lia | now apply Hall].
Qed.

(** [min()] is an element of the column and a lower bound of it. *)
Lemma series_min_spec (s : list Z) m :
  series_min s = Some m -> In m s /\ forall x, In x s -> m <= x.
Proof.
  destruct s as [|a l]; [discriminate|]. intros [= Hm].
  destruct (fold_min_spec l a m Hm) as [Hin [Hle Hall]]. split.
  - destruct Hin as [->|Hin]; [now left | now right].
  - intros x [<-|Hx]; [exact Hle | now apply Hall].
Qed.

(** [max()] is an element of the column and an upper bound of it. *)
Lemma series_max_spec (s : list Z) m :
  series_max s = Some m -> In m s /\ forall x, In x s -> x <= m.
Proof.
  destruct s as [|a l]; [discriminate|]. intros [= Hm].
  destruct (fold_max_spec l a m Hm) as [Hin [Hle Hall]]. split.
  - destruct Hin as [->|Hin]; [now left | now right].
  - intros x [<-|Hx]; [exact Hle | now apply Hall].
Qed.

Lemma range_from_closed (step : Z) (Hstep : 0 < step) :
  forall fuel i stop,
    (Z.to_nat (stop - i) <= fuel)%nat ->
    range_from fuel i stop step =
    map (fun k => i + step * Z.of_nat k)
        (seq 0 (Z.to_nat ((stop - i + step - 1) / step))).
Proof.
  induction fuel as [|fuel IH]; intros i stop Hfuel.
  - assert ((stop - i + step - 1) / step <= 0).
    { assert ((stop - i + step - 1) / step < 1); [|lia].
      apply Z.div_lt_upper_bound; lia. }
    replace (Z.to_nat ((stop - i + step - 1) / step)) with O by lia.
    reflexivity.
  - simpl. destruct (Z.ltb_spec i stop) as [Hlt|Hge].
    + assert (Hdiv : (stop - i + step - 1) / step
                     = (stop - (i + step) + step - 1) / step + 1).
      { replace (stop - i + step - 1)
          with (stop - (i + step) + step - 1 + 1 * step) by ring.
        apply Z.div_add. lia. }
      assert (0 <= (stop - (i + step) + step - 1) / step)
        by (apply Z.div_pos; lia).
      rewrite Hdiv.
      replace (Z.to_nat ((stop - (i + step) + step - 1) / step + 1))
        with (S (Z.to_nat ((stop - (i + step) + step - 1) / step))) by lia.
      rewrite IH by lia.
      cbn [seq map]. f_equal; [lia|].
      rewrite <- seq_shift, map_map.
      apply map_ext. intros k. lia.
    + assert ((stop - i + step - 1) / step <= 0).
      { assert ((stop - i + step - 1) / step < 1); [|lia].
        apply Z.div_lt_upper_bound; lia. }
      replace (Z.to_nat ((stop - i + step - 1) / step)) with O by lia.
      reflexivity.
Qed.

Lemma range_closed start stop step :
  0 < step ->
  range start stop step =
  map (fun k => start + step * Z.of_nat k)
      (seq 0 (Z.to_nat ((stop - start + step - 1) / step))).
Proof.
  intros Hstep. unfold range. apply range_from_closed; [assumption|lia].
Qed.

(** The start indices of the sampler's loop over a frame of [L] rows. *)
Lemma window_starts L :
  BAR_PER_DATAPOINT <= L ->
  range 0 (L - BAR_PER_DATAPOINT + 1) 3 =
  map (fun k => 3 * Z.of_nat k)
      (seq 0 (Z.to_nat ((L - BAR_PER_DATAPOINT) / 3 + 1))).
Proof.
  intros HL. rewrite range_closed by lia.
  replace (L - BAR_PER_DATAPOINT + 1 - 0 + 3 - 1)
    with (L - BAR_PER_DATAPOINT + 1 * 3) by ring.
  rewrite Z.div_add by lia.
  apply map_ext. intros k. lia.
Qed.

Lemma len_app {A : Type} (l1 l2 : list A) : len (l1 ++ l2) = len l1 + len l2.
Proof. unfold len. rewrite length_app. lia. Qed.

Lemma len_map {A B : Type} (f : A -> B) (l : list A) : len (map f l) = len l.
Proof. unfold len. rewrite length_map. reflexivity. Qed.

(** [l[a:b]] for bounds within the list. *)
Lemma iloc_inner {A : Type} (l : list A) a b :
  0 <= a -> a <= b -> b <= len l ->
  iloc l (Some a) (Some b) =
  firstn (Z.to_nat (b - a)) (skipn (Z.to_nat a) l).
Proof.
  intros Ha Hab Hb. unfold iloc, slice_bound.
  destruct (Z.ltb_spec a 0); [lia|].
  destruct (Z.ltb_spec b 0); [lia|].
  rewrite !Z.min_l by lia. reflexivity.
Qed.

Lemma len_iloc_inner {A : Type} (l : list A) a b :
  0 <= a -> a <= b -> b <= len l ->
  len (iloc l (Some a) (Some b)) = b - a.
Proof.
  intros Ha Hab Hb. rewrite iloc_inner by assumption.
  unfold len in *. rewrite length_firstn, length_skipn. lia.
Qed.

(** [l[:c]] and [l[c:]] of a slice are slices of the list itself. *)
Lemma iloc_prefix {A : Type} (l : list A) a b c :
  0 <= a -> 0 <= c -> a + c <= b -> b <= len l ->
  iloc (iloc l (Some a) (Some b)) None (Some c) =
  iloc l (Some a) (Some (a + c)).
Proof.
  intros Ha Hc Hcb Hb.
  assert (Hlen := len_iloc_inner l a b Ha ltac:(lia) Hb).
  rewrite (iloc_inner l a (a + c)) by lia.
  unfold iloc at 1. unfold slice_bound. rewrite Hlen.
  destruct (Z.ltb_spec c 0); [lia|].
  rewrite Z.min_l by lia. rewrite iloc_inner by lia.
  cbn [skipn Z.to_nat]. rewrite firstn_firstn.
  f_equal. lia.
Qed.

Lemma iloc_suffix {A : Type} (l : list A) a b c :
  0 <= a -> 0 <= c -> a + c <= b -> b <= len l ->
  iloc (iloc l (Some a) (Some b)) (Some c) None =
  iloc l (Some (a + c)) (Some b).
Proof.
  intros Ha Hc Hcb Hb.
  assert (Hlen := len_iloc_inner l a b Ha ltac:(lia) Hb).
  rewrite (iloc_inner l (a + c) b) by lia.
  unfold iloc at 1. unfold slice_bound. rewrite Hlen.
  destruct (Z.ltb_spec c 0); [lia|].
  rewrite Z.min_l by lia. rewrite iloc_inner by lia.
  rewrite skipn_firstn_comm, skipn_skipn.
  rewrite firstn_firstn.
  f_equal; [lia | f_equal; lia].
Qed.

(** Two adjacent slices make up the slice that spans them. *)
Lemma iloc_adjacent {A : Type} (l : list A) a b c :
  0 <= a -> a <= b -> b <= c -> c <= len l ->
  iloc l (Some a) (Some b) ++ iloc l (Some b) (Some c) =
  iloc l (Some a) (Some c).
Proof.
  intros Ha Hab Hbc Hc. rewrite !iloc_inner by lia.
  replace (skipn (Z.to_nat b) l)
    with (skipn (Z.to_nat (b - a)) (skipn (Z.to_nat a) l))
    by (rewrite skipn_skipn; f_equal; lia).
  replace (Z.to_nat (c - a)) with (Z.to_nat (b - a) + Z.to_nat (c - b))%nat
    by lia.
  generalize (skipn (Z.to_nat a) l) as t.
  generalize (Z.to_nat (c - b)) as m.
  induction (Z.to_nat (b - a)) as [|n IH]; intros m t; [reflexivity|].
  destruct t as [|x t]; [now rewrite !firstn_nil|].
  cbn [Nat.add firstn skipn app]. f_equal. apply IH.
Qed.

(** ** The sampler *)

Lemma BAR_PER_DATAPOINT_eq : BAR_PER_DATAPOINT = 192.
Proof. reflexivity. Qed.

Lemma INPUT_BAR_PER_DATAPOINT_eq : INPUT_BAR_PER_DATAPOINT = 176.
Proof. reflexivity. Qed.

Lemma OUTPUT_BAR_PER_DATAPOINT_eq : OUTPUT_BAR_PER_DATAPOINT = 16.
Proof. reflexivity. Qed.

Ltac constants :=
  rewrite ?BAR_PER_DATAPOINT_eq, ?INPUT_BAR_PER_DATAPOINT_eq,
    ?OUTPUT_BAR_PER_DATAPOINT_eq in *.

Section Sampler.

Context {price : Type}.
Implicit Types (df : DataFrame price) (d : Dataset price).

Lemma dims_eqb_refl (x : Z * Z) : dims_eqb x x = true.
Proof. unfold dims_eqb. now rewrite !Z.eqb_refl. Qed.

Lemma dims_eqb_eq (x y : Z * Z) : dims_eqb x y = true <-> x = y.
Proof.
  unfold dims_eqb. destruct x, y. simpl.
  rewrite andb_true_iff, !Z.eqb_eq. split.
  - intros [-> ->]. reflexivity.
  - intros [= -> ->]. split; reflexivity.
Qed.

Lemma sample_window_ok df d s :
  0 <= s -> s + BAR_PER_DATAPOINT <= len df -> well_shaped d ->
  sample_window df d s =
  Ok {| X := {| dims := dims (X d);
                items := items (X d) ++ [input_rows df s] |};
        Y := {| dims := dims (Y d);
                items := items (Y d) ++ [output_rows df s] |} |}.
Proof.
  intros Hs Hfit [HX HY]. unfold sample_window.
  rewrite iloc_prefix, iloc_suffix by (constants; lia).
  unfold extract_open_close_high_low.
  rewrite !len_iloc_inner by (constants; lia).
  unfold add, Dataset__add__, np_concatenate. cbn [X Y dims items].
  rewrite HX, HY.
  replace (s + INPUT_BAR_PER_DATAPOINT - s) with INPUT_BAR_PER_DATAPOINT
    by ring.
  replace (s + BAR_PER_DATAPOINT - (s + INPUT_BAR_PER_DATAPOINT))
    with OUTPUT_BAR_PER_DATAPOINT by (constants; ring).
  rewrite !dims_eqb_refl. reflexivity.
Qed.

Lemma for_each_windows df : forall starts d,
  Forall (fun s => 0 <= s /\ s + BAR_PER_DATAPOINT <= len df) starts ->
  well_shaped d ->
  for_each (sample_window df) starts d =
  Ok {| X := {| dims := dims (X d);
                items := items (X d) ++ map (input_rows df) starts |};
        Y := {| dims := dims (Y d);
                items := items (Y d) ++ map (output_rows df) starts |} |}.
Proof.
  induction starts as [|s starts IH]; intros d Hall Hd.
  - destruct d as [[dx ix] [dy iy]]. simpl. now rewrite !app_nil_r.
  - inversion Hall as [|? ? [Hs Hfit] Hrest]; subst.
    cbn [for_each]. rewrite sample_window_ok by assumption.
    cbn [bind]. rewrite IH; [|assumption|exact Hd].
    cbn [X Y dims items map]. now rewrite <- !app_assoc.
Qed.

Lemma window_starts_fit L :
  BAR_PER_DATAPOINT <= L ->
  Forall (fun s => 0 <= s /\ s + BAR_PER_DATAPOINT <= L)
         (range 0 (L - BAR_PER_DATAPOINT + 1) 3).
Proof.
  intros HL. rewrite window_starts by assumption.
  apply Forall_forall. intros s Hin.
  apply in_map_iff in Hin as [k [<- Hk]]. apply in_seq in Hk.
  assert (0 <= (L - BAR_PER_DATAPOINT) / 3) by (apply Z.div_pos; lia).
  assert (Z.of_nat k <= (L - BAR_PER_DATAPOINT) / 3) by lia.
  assert (3 * ((L - BAR_PER_DATAPOINT) / 3) <= L - BAR_PER_DATAPOINT)
    by (apply Z.mul_div_le; lia).
  lia.
Qed.

(** A frame shorter than one window: the list literal comes back. *)
Lemma sampler_short df :
  len df < BAR_PER_DATAPOINT ->
  sliding_window_sample_datapoints df = Ok EmptyList.
Proof.
  intros H. unfold sliding_window_sample_datapoints.
  destruct (Z.ltb_spec (len df) BAR_PER_DATAPOINT); [reflexivity | lia].
Qed.

(** A frame with at least one window: the loop never raises and the
    result holds one sample per start index, in the order of the loop. *)
Lemma sampler_long df :
  BAR_PER_DATAPOINT <= len df ->
  sliding_window_sample_datapoints df = Ok (IsDataset (sampled df)).
Proof.
  intros H. unfold sliding_window_sample_datapoints.
  destruct (Z.ltb_spec (len df) BAR_PER_DATAPOINT); [lia|].
  rewrite for_each_windows.
  - reflexivity.
  - now apply window_starts_fit.
  - split; reflexivity.
Qed.

Lemma sampled_count df :
  BAR_PER_DATAPOINT <= len df ->
  len (items (X (sampled df))) = (len df - BAR_PER_DATAPOINT) / 3 + 1
  /\ len (items (Y (sampled df))) = (len df - BAR_PER_DATAPOINT) / 3 + 1.
Proof.
  intros H. unfold sampled. cbn [X Y items].
  rewrite !len_map, window_starts by assumption.
  unfold len. rewrite length_map, length_seq.
  assert (0 <= (Z.of_nat (length df) - BAR_PER_DATAPOINT) / 3)
    by (apply Z.div_pos; unfold len in H; lia).
  lia.
Qed.

Lemma sampled_well_shaped df : well_shaped (sampled df).
Proof. split; reflexivity. Qed.

End Sampler.

(** ** The partitioner *)

Section Partitioner.

Context {price : Type}.
Implicit Types (df : DataFrame price) (d : Dataset price).
Implicit Types (acc : Dataset price * Dataset price).

(** The [while] loop, one pass unfolded. *)
Lemma while_blocks_step df end_date current_date acc :
  while_blocks df end_date current_date acc =
  if current_date + Timedelta_days SPLIT_PER_DAY <=? end_date
  then acc' <- block_body df current_date acc ;;
       while_blocks df end_date
         (current_date + Timedelta_days SPLIT_PER_DAY) acc'
  else Ok acc.
Proof.
  rewrite while_blocks_equation_1.
  destruct (Z.leb_spec (current_date + Timedelta_days SPLIT_PER_DAY) end_date);
    destruct (Z_le_gt_dec (current_date + Timedelta_days SPLIT_PER_DAY)
                          end_date);
    try lia; [|reflexivity].
  cbn [while_blocks_unfold_clause_1].
  destruct (block_body df current_date acc); reflexivity.
Qed.

Lemma block_count_zero current_date end_date :
  end_date < current_date + Timedelta_days SPLIT_PER_DAY ->
  block_count current_date end_date = O.
Proof.
  intros H. unfold block_count.
  assert ((end_date - current_date) / Timedelta_days SPLIT_PER_DAY < 1);
    [|lia].
  apply Z.div_lt_upper_bound; [reflexivity|lia].
Qed.

Lemma block_count_succ current_date end_date :
  current_date + Timedelta_days SPLIT_PER_DAY <= end_date ->
  block_count current_date end_date =
  S (block_count (current_date + Timedelta_days SPLIT_PER_DAY) end_date).
Proof.
  intros H. unfold block_count.
  set (B := Timedelta_days SPLIT_PER_DAY) in *.
  assert (HB : 0 < B) by reflexivity.
  replace (end_date - current_date)
    with (end_date - (current_date + B) + 1 * B) by ring.
  rewrite Z.div_add by lia.
  assert (0 <= (end_date - (current_date + B)) / B)
    by (apply Z.div_pos; lia).
  lia.
Qed.

Lemma block_starts_nil current_date end_date :
  end_date < current_date + Timedelta_days SPLIT_PER_DAY ->
  block_starts current_date end_date = [].
Proof.
  intros H. unfold block_starts. now rewrite block_count_zero.
Qed.

Lemma block_starts_cons current_date end_date :
  current_date + Timedelta_days SPLIT_PER_DAY <= end_date ->
  block_starts current_date end_date =
  current_date ::
  block_starts (current_date + Timedelta_days SPLIT_PER_DAY) end_date.
Proof.
  intros H. unfold block_starts. rewrite block_count_succ by assumption.
  cbn [seq map]. f_equal; [lia|].
  rewrite <- seq_shift, map_map. apply map_ext. intros k. lia.
Qed.

(** The loop goes through the blocks of [block_starts], in order. *)
Lemma while_blocks_run df end_date :
  forall n current_date acc,
    block_count current_date end_date = n ->
    while_blocks df end_date current_date acc =
    run_blocks df (block_starts current_date end_date) acc.
Proof.
  induction n as [|n IH]; intros current_date acc Hn;
    rewrite while_blocks_step;
    destruct (Z.leb_spec (current_date + Timedelta_days SPLIT_PER_DAY)
                         end_date) as [Hle|Hgt].
  - rewrite block_count_succ in Hn by assumption. discriminate.
  - now rewrite block_starts_nil.
  - rewrite block_starts_cons by assumption. unfold run_blocks at 1.
    cbn [for_each]. destruct (block_body df current_date acc); cbn [bind].
    + apply IH. rewrite block_count_succ in Hn by assumption. congruence.
    + reflexivity.
  - rewrite block_count_zero in Hn by assumption. discriminate.
Qed.

Lemma add_Dataset (a b : Dataset price) :
  dims (X a) = dims (X b) -> dims (Y a) = dims (Y b) ->
  add a (IsDataset b) = Ok (concat a b).
Proof.
  intros HX HY. unfold add, Dataset__add__, np_concatenate.
  rewrite HX, HY, !dims_eqb_refl. cbn [bind]. unfold concat.
  now rewrite HX, HY.
Qed.

Lemma add_well_shaped (a b : Dataset price) :
  well_shaped a -> well_shaped b -> add a (IsDataset b) = Ok (concat a b).
Proof.
  intros [HXa HYa] [HXb HYb]. apply add_Dataset; congruence.
Qed.

Lemma concat_well_shaped (a b : Dataset price) :
  well_shaped a -> well_shaped (concat a b).
Proof. intros H. exact H. Qed.

Lemma concat_paired (a b : Dataset price) :
  paired a -> paired b -> paired (concat a b).
Proof.
  unfold paired, concat. cbn [X Y items]. rewrite !len_app. lia.
Qed.

Lemma sampled_paired df : paired (sampled df).
Proof. unfold paired, sampled. cbn [X Y items]. now rewrite !len_map. Qed.

(** The three ways through the loop body. *)
Lemma block_body_short_training df current_date training_data validation_data :
  len (training_df df current_date) < BAR_PER_DATAPOINT ->
  block_body df current_date (training_data, validation_data) =
  Raise TypeError.
Proof.
  intros H. unfold block_body. now rewrite sampler_short.
Qed.

Lemma block_body_short_validation df current_date
    training_data validation_data :
  well_shaped training_data ->
  BAR_PER_DATAPOINT <= len (training_df df current_date) ->
  len (validation_df df current_date) < BAR_PER_DATAPOINT ->
  block_body df current_date (training_data, validation_data) =
  Raise TypeError.
Proof.
  intros Ht Hlong Hshort. unfold block_body.
  rewrite sampler_long by assumption. cbn [bind].
  rewrite add_well_shaped by (assumption || apply sampled_well_shaped).
  cbn [bind]. now rewrite sampler_short.
Qed.

Lemma block_body_ok df current_date training_data validation_data :
  well_shaped training_data -> well_shaped validation_data ->
  BAR_PER_DATAPOINT <= len (training_df df current_date) ->
  BAR_PER_DATAPOINT <= len (validation_df df current_date) ->
  block_body df current_date (training_data, validation_data) =
  Ok (concat training_data (sampled (training_df df current_date)),
      concat validation_data (sampled (validation_df df current_date))).
Proof.
  intros Ht Hv Hlt Hlv. unfold block_body.
  rewrite !sampler_long by assumption. cbn [bind].
  rewrite !add_well_shaped by (assumption || apply sampled_well_shaped).
  reflexivity.
Qed.

Lemma short_slice_dec df current_date :
  {short_slice df current_date} + {~ short_slice df current_date}.
Proof.
  unfold short_slice.
  destruct (Z_lt_dec (len (training_df df current_date)) BAR_PER_DATAPOINT);
    [left; now left|].
  destruct (Z_lt_dec (len (validation_df df current_date)) BAR_PER_DATAPOINT);
    [left; now right|].
  right. intros [H|H]; contradiction.
Qed.

Lemma block_body_short df current_date training_data validation_data :
  well_shaped training_data ->
  short_slice df current_date ->
  block_body df current_date (training_data, validation_data) =
  Raise TypeError.
Proof.
  intros Ht [H|H].
  - now apply block_body_short_training.
  - destruct (Z_lt_dec (len (training_df df current_date)) BAR_PER_DATAPOINT).
    + now apply block_body_short_training.
    + apply block_body_short_validation; [assumption|lia|assumption].
Qed.

(** Starting from well-shaped, paired accumulators, the fold over any
    start dates either raises [TypeError] (some block has a short slice)
    or returns well-shaped, paired accumulators (no block has one). *)
Lemma run_blocks_outcome df : forall starts training_data validation_data,
  well_shaped training_data -> well_shaped validation_data ->
  paired training_data -> paired validation_data ->
  (Exists (short_slice df) starts /\
   run_blocks df starts (training_data, validation_data) = Raise TypeError)
  \/
  (Forall (fun c => ~ short_slice df c) starts /\
   exists t v,
     run_blocks df starts (training_data, validation_data) = Ok (t, v) /\
     well_shaped t /\ well_shaped v /\ paired t /\ paired v).
Proof.
  induction starts as [|c starts IH];
    intros training_data validation_data Ht Hv Pt Pv.
  - right. split; [constructor|]. now exists training_data, validation_data.
  - destruct (short_slice_dec df c) as [Hshort|Hlong].
    + left. split; [now constructor|].
      unfold run_blocks. cbn [for_each].
      now rewrite block_body_short.
    + assert (Hlt : BAR_PER_DATAPOINT <= len (training_df df c))
        by (unfold short_slice in Hlong; lia).
      assert (Hlv : BAR_PER_DATAPOINT <= len (validation_df df c))
        by (unfold short_slice in Hlong; lia).
      unfold run_blocks. cbn [for_each].
      rewrite block_body_ok by assumption. cbn [bind].
      destruct (IH (concat training_data (sampled (training_df df c)))
                   (concat validation_data (sampled (validation_df df c))))
        as [[Hex Hr]|[Hall Hr]];
        try (apply concat_well_shaped; assumption);
        try (apply concat_paired; [assumption | apply sampled_paired]).
      * left. split; [now apply Exists_cons_tl | exact Hr].
      * right. split; [now constructor | exact Hr].
Qed.

End Partitioner.

(** ** Properties of the sampler and of concatenation *)

Section SamplerClaims.

Context {price : Type}.
Implicit Types (df : DataFrame price) (d : Dataset price).

Lemma window_start_iff L s :
  192 <= L ->
  In s (range 0 (L - 192 + 1) 3) <->
  (exists k, 0 <= k /\ s = 3 * k) /\ s + 192 <= L.
Proof.
  intros HL.
  change 192 with BAR_PER_DATAPOINT in *.
  rewrite window_starts by assumption.
  assert (Hq : 0 <= (L - BAR_PER_DATAPOINT) / 3) by (apply Z.div_pos; lia).
  assert (Hm : 3 * ((L - BAR_PER_DATAPOINT) / 3) <= L - BAR_PER_DATAPOINT)
    by (apply Z.mul_div_le; lia).
  rewrite in_map_iff. split.
  - intros [k [<- Hk]]. apply in_seq in Hk. split.
    + exists (Z.of_nat k). lia.
    + lia.
  - intros [[k [Hk ->]] Hfit]. exists (Z.to_nat k). split; [lia|].
    apply in_seq.
    assert (k <= (L - BAR_PER_DATAPOINT) / 3)
      by (apply Z.div_le_lower_bound; lia).
    lia.
Qed.

(** C1. A frame of [L >= 192] rows yields [floor((L - 192) / 3) + 1]
    samples, one per start index [0, 3, 6, ...] with [s + 192 <= L]; a
    frame of fewer than 192 rows yields a value with no sample (the
    list literal). 192 rows give one sample, 191 rows none. *)
Theorem sampler_sample_count df :
  exists v,
    sliding_window_sample_datapoints df = Ok v /\
    sample_count v =
      (if 192 <=? len df then (len df - 192) / 3 + 1 else 0) /\
    (192 <= len df ->
       v = IsDataset (sampled df) /\
       len (items (Y (sampled df))) = (len df - 192) / 3 + 1 /\
       forall s, In s (range 0 (len df - 192 + 1) 3) <->
                 (exists k, 0 <= k /\ s = 3 * k) /\ s + 192 <= len df) /\
    (len df = 192 -> sample_count v = 1) /\
    (len df = 191 -> sample_count v = 0).
Proof.
  destruct (Z.leb_spec 192 (len df)) as [Hlong|Hshort].
  - exists (IsDataset (sampled df)).
    pose proof (sampled_count df Hlong) as [HX HY].
    change BAR_PER_DATAPOINT with 192 in HX, HY.
    split; [now apply sampler_long|].
    split; [exact HX|].
    split; [|split].
    + intros _. split; [reflexivity|]. split; [exact HY|].
      intros s. now apply window_start_iff.
    + intros HL. cbn [sample_count]. rewrite HX, HL. reflexivity.
    + lia.
  - exists EmptyList.
    split; [now apply sampler_short|].
    split; [reflexivity|].
    split; [lia|]. split; [lia|reflexivity].
Qed.

(** C6. Sample [k] of the sampler's result comes from the window that
    starts at row [s = 3k]: [X[k]] holds, row for row, the values of the
    columns 2, 3, 4 and 5, in this order, of [df[s : s+176]], 176 rows of
    4 entries, and [Y[k]] those of [df[s+176 : s+192]], 16 rows of 4
    entries. The two row ranges are adjacent and do not overlap: put end
    to end they are the 192 rows of the window [df[s : s+192]]. *)
Theorem sampler_windows df :
  192 <= len df ->
  exists d,
    sliding_window_sample_datapoints df = Ok (IsDataset d) /\
    shape (X d) = (len (items (X d)), 176, 4) /\
    shape (Y d) = (len (items (X d)), 16, 4) /\
    forall k : nat,
      Z.of_nat k < len (items (X d)) ->
      let s := 3 * Z.of_nat k in
      let input := iloc df (Some s) (Some (s + 176)) in
      let output := iloc df (Some (s + 176)) (Some (s + 192)) in
      let prices := fun b : Bar price => [col2 b; col3 b; col4 b; col5 b] in
      s + 192 <= len df /\
      nth_error (items (X d)) k = Some (map prices input) /\
      nth_error (items (Y d)) k = Some (map prices output) /\
      item_has_shape 176 4 (map prices input) /\
      item_has_shape 16 4 (map prices output) /\
      input ++ output = iloc df (Some s) (Some (s + 192)) /\
      len (iloc df (Some s) (Some (s + 192))) = len input + len output.
Proof.
  intros Hlong. exists (sampled df).
  pose proof (sampled_count df Hlong) as [HX HY].
  split; [now apply sampler_long|].
  split; [reflexivity|].
  split; [unfold shape; rewrite HX, HY; reflexivity|].
  intros k Hk s input output prices.
  change prices with (@values_2_6 price).
  rewrite HX in Hk. change BAR_PER_DATAPOINT with 192 in Hk.
  assert (Hq : 0 <= (len df - 192) / 3) by (apply Z.div_pos; lia).
  assert (Hm : 3 * ((len df - 192) / 3) <= len df - 192)
    by (apply Z.mul_div_le; lia).
  assert (Hfit : s + 192 <= len df) by (subst s; lia).
  assert (Hnth : nth_error (range 0 (len df - BAR_PER_DATAPOINT + 1) 3) k
                 = Some s).
  { rewrite window_starts by assumption.
    rewrite nth_error_map, nth_error_seq.
    change BAR_PER_DATAPOINT with 192.
    destruct (Nat.ltb_spec k (Z.to_nat ((len df - 192) / 3 + 1))); [|lia].
    reflexivity. }
  assert (Hin : len input = 176)
    by (subst input; rewrite len_iloc_inner; lia).
  assert (Hout : len output = 16)
    by (subst output; rewrite len_iloc_inner; lia).
  repeat split.
  - exact Hfit.
  - unfold sampled. cbn [X items]. now rewrite nth_error_map, Hnth.
  - unfold sampled. cbn [Y items]. now rewrite nth_error_map, Hnth.
  - now rewrite len_map.
  - apply Forall_map, Forall_forall. reflexivity.
  - now rewrite len_map.
  - apply Forall_map, Forall_forall. reflexivity.
  - subst input output. apply iloc_adjacent; lia.
  - rewrite len_iloc_inner by lia. lia.
Qed.

Lemma add_assoc (A B C : Dataset price) :
  (AB <- add A (IsDataset B) ;; add AB (IsDataset C)) =
  (BC <- add B (IsDataset C) ;; add A (IsDataset BC)).
Proof.
  destruct A as [[dxa ixa] [dya iya]], B as [[dxb ixb] [dyb iyb]],
    C as [[dxc ixc] [dyc iyc]].
  unfold add, Dataset__add__, np_concatenate. cbn [X Y dims items].
  destruct (dims_eqb dxa dxb) eqn:Exab, (dims_eqb dya dyb) eqn:Eyab,
    (dims_eqb dxb dxc) eqn:Exbc, (dims_eqb dyb dyc) eqn:Eybc;
    cbn [bind X Y dims items];
    repeat match goal with
      | H : dims_eqb _ _ = true |- _ => apply dims_eqb_eq in H; subst
      end;
    rewrite ?dims_eqb_refl, ?Exab, ?Eyab, ?Exbc, ?Eybc;
    cbn [bind X Y dims items];
    rewrite ?dims_eqb_refl, ?Exab, ?Eyab, ?Exbc, ?Eybc;
    cbn [bind]; rewrite <- ?app_assoc; reflexivity.
Qed.

(** C7. Concatenation is a monoid on the Datasets of the documented
    shapes: [(A + B) + C] and [A + (B + C)] both return, and return the
    same Dataset; [empty_dataset() + A] and [A + empty_dataset()] return
    [A]; and [A + B] holds the samples of [A] followed by those of [B],
    [Na + Nb] of them, in [X] and in [Y]. *)
Theorem concat_monoid (A B C : Dataset price) :
  well_shaped A -> well_shaped B -> well_shaped C ->
  (exists AB BC ABC,
     add A (IsDataset B) = Ok AB /\ add B (IsDataset C) = Ok BC /\
     add AB (IsDataset C) = Ok ABC /\ add A (IsDataset BC) = Ok ABC) /\
  add empty_dataset (IsDataset A) = Ok A /\
  add A (IsDataset empty_dataset) = Ok A /\
  (exists AB,
     add A (IsDataset B) = Ok AB /\ well_shaped AB /\
     items (X AB) = items (X A) ++ items (X B) /\
     items (Y AB) = items (Y A) ++ items (Y B) /\
     len (items (X AB)) = len (items (X A)) + len (items (X B)) /\
     len (items (Y AB)) = len (items (Y A)) + len (items (Y B))).
Proof.
  intros HA HB HC.
  split; [|split; [|split]].
  - exists (concat A B), (concat B C), (concat (concat A B) C).
    pose proof (add_assoc A B C) as Hassoc.
    rewrite (add_well_shaped A B), (add_well_shaped B C) in Hassoc
      by assumption.
    cbn [bind] in Hassoc.
    split; [now apply add_well_shaped|].
    split; [now apply add_well_shaped|].
    split; [|rewrite <- Hassoc];
      (apply add_well_shaped; [now apply concat_well_shaped | assumption]).
  - rewrite add_well_shaped by (assumption || split; reflexivity).
    destruct A as [[dx ix] [dy iy]], HA as [HX HY].
    cbn in HX, HY. subst. reflexivity.
  - rewrite add_well_shaped by (assumption || split; reflexivity).
    destruct A as [[dx ix] [dy iy]]. unfold concat. cbn.
    now rewrite !app_nil_r.
  - exists (concat A B).
    split; [now apply add_well_shaped|].
    split; [now apply concat_well_shaped|].
    cbn [concat X Y items].
    split; [reflexivity|]. split; [reflexivity|].
    split; apply len_app.
Qed.

End SamplerClaims.

(** ** Properties of the partitioner *)

Section PartitionerClaims.

Context {price : Type}.
Implicit Types (df : DataFrame price) (d : Dataset price) (b : Bar price).

Lemma empty_well_shaped : well_shaped (@empty_dataset price).
Proof. split; reflexivity. Qed.

Lemma empty_paired : paired (@empty_dataset price).
Proof. reflexivity. Qed.

Lemma split_run df start_date end_date :
  series_min (map OpenTime df) = Some start_date ->
  series_max (map CloseTime df) = Some end_date ->
  split_train_validation df =
  run_blocks df (block_starts start_date end_date)
             (empty_dataset, empty_dataset).
Proof.
  intros Hmin Hmax. unfold split_train_validation.
  rewrite Hmin, Hmax. unfold ms_timestamp_to_datetime.
  now apply while_blocks_run with (n := block_count start_date end_date).
Qed.

(** Either the frame has no row, or both ends of its time span exist. *)
Lemma span_cases df :
  df = [] \/
  exists start_date end_date,
    series_min (map OpenTime df) = Some start_date /\
    series_max (map CloseTime df) = Some end_date.
Proof.
  destruct df as [|b df]; [now left|right].
  cbn [map series_min series_max]. eauto.
Qed.

(** The two ends of the span: the earliest open and the latest close
    of the frame, each the time of one of its bars. *)
Lemma span_ends df start_date end_date :
  series_min (map OpenTime df) = Some start_date ->
  series_max (map CloseTime df) = Some end_date ->
  (exists b, In b df /\ OpenTime b = start_date) /\
  (forall b, In b df -> start_date <= OpenTime b) /\
  (exists b, In b df /\ CloseTime b = end_date) /\
  (forall b, In b df -> CloseTime b <= end_date).
Proof.
  intros Hmin Hmax.
  apply series_min_spec in Hmin as [Hin_min Hle_min].
  apply series_max_spec in Hmax as [Hin_max Hle_max].
  apply in_map_iff in Hin_min as [bo [Hbo Hino]].
  apply in_map_iff in Hin_max as [bc [Hbc Hinc]].
  split; [now exists bo|]. split.
  - intros b Hb. apply Hle_min. now apply in_map.
  - split; [now exists bc|].
    intros b Hb. apply Hle_max. now apply in_map.
Qed.

Lemma in_block_starts current_date end_date c :
  In c (block_starts current_date end_date) <->
  exists k : nat,
    c = current_date + Timedelta_days SPLIT_PER_DAY * Z.of_nat k /\
    (k < block_count current_date end_date)%nat.
Proof.
  unfold block_starts. rewrite in_map_iff. split.
  - intros [k [<- Hk]]. apply in_seq in Hk. exists k. split; [reflexivity|lia].
  - intros [k [-> Hk]]. exists k. split; [reflexivity|]. apply in_seq. lia.
Qed.

Lemma block_count_lt_iff current_date end_date (k : nat) :
  (k < block_count current_date end_date)%nat <->
  current_date + Timedelta_days SPLIT_PER_DAY * Z.of_nat k
    + Timedelta_days SPLIT_PER_DAY <= end_date.
Proof.
  unfold block_count.
  set (B := Timedelta_days SPLIT_PER_DAY).
  assert (HB : 0 < B) by reflexivity.
  set (span := end_date - current_date).
  assert (Hm : B * (span / B) <= span) by (apply Z.mul_div_le; lia).
  assert (Hu : span < B * (span / B) + B).
  { pose proof (Z.mod_pos_bound span B HB).
    pose proof (Z.div_mod span B ltac:(lia)). lia. }
  split; intros H.
  - assert (Z.of_nat k + 1 <= span / B) by lia.
    assert (B * (Z.of_nat k + 1) <= B * (span / B))
      by (apply Z.mul_le_mono_nonneg_l; lia).
    subst span. lia.
  - assert (Z.of_nat k + 1 <= span / B).
    { apply Z.div_le_lower_bound; [lia|]. subst span. lia. }
    lia.
Qed.

Lemma in_training_df df current_date b :
  In b (training_df df current_date) <->
  In b df /\ current_date <= OpenTime b /\
  CloseTime b < current_date + Timedelta_days TRAINING_DAY.
Proof.
  unfold training_df. rewrite filter_In, andb_true_iff, Z.leb_le, Z.ltb_lt.
  reflexivity.
Qed.

Lemma in_validation_df df current_date b :
  In b (validation_df df current_date) <->
  In b df /\ current_date + Timedelta_days TRAINING_DAY <= OpenTime b /\
  CloseTime b < current_date + Timedelta_days SPLIT_PER_DAY.
Proof.
  unfold validation_df. rewrite filter_In, andb_true_iff, Z.leb_le, Z.ltb_lt.
  reflexivity.
Qed.

(** C3. In the pass of the loop for the block that starts at [cursor],
    the sampler is given, for training, exactly the bars with
    [open_time >= cursor] and [close_time < cursor + 20 days] and, for
    validation, exactly the bars with [open_time >= cursor + 20 days] and
    [close_time < cursor + 23 days]; a bar that closes exactly at
    [cursor + 20 days] is not in the training slice. *)
Theorem block_slices df cursor b :
  (In b (training_df df cursor) <->
   In b df /\ cursor <= OpenTime b /\
   CloseTime b < cursor + Timedelta_days 20) /\
  (In b (validation_df df cursor) <->
   In b df /\ cursor + Timedelta_days 20 <= OpenTime b /\
   CloseTime b < cursor + Timedelta_days 23) /\
  (CloseTime b = cursor + Timedelta_days 20 ->
   ~ In b (training_df df cursor)) /\
  (forall training_data validation_data,
     block_body df cursor (training_data, validation_data) =
     (t <- sliding_window_sample_datapoints (training_df df cursor) ;;
      training_data' <- add training_data t ;;
      v <- sliding_window_sample_datapoints (validation_df df cursor) ;;
      validation_data' <- add validation_data v ;;
      Ok (training_data', validation_data'))).
Proof.
  split; [apply in_training_df|].
  split; [apply in_validation_df|].
  split; [|reflexivity].
  intros Hclose Hin. apply in_training_df in Hin.
  change TRAINING_DAY with 20 in Hin. lia.
Qed.

Lemma for_each_ext_in {A S : Type} (f g : S -> A -> result S) xs :
  (forall x s, In x xs -> f s x = g s x) ->
  forall s, for_each f xs s = for_each g xs s.
Proof.
  induction xs as [|x xs IH]; intros Hfg s; [reflexivity|].
  cbn [for_each]. rewrite Hfg by now left.
  destruct (g s x); cbn [bind]; [|reflexivity].
  apply IH. intros y s' Hy. apply Hfg. now right.
Qed.

Lemma overwrite_OpenTime cutoff (p : price) df :
  map OpenTime (overwrite_from cutoff p df) = map OpenTime df.
Proof.
  unfold overwrite_from. rewrite map_map. apply map_ext.
  intros b. now destruct (cutoff <=? CloseTime b).
Qed.

Lemma overwrite_CloseTime cutoff (p : price) df :
  map CloseTime (overwrite_from cutoff p df) = map CloseTime df.
Proof.
  unfold overwrite_from. rewrite map_map. apply map_ext.
  intros b. now destruct (cutoff <=? CloseTime b).
Qed.

(** A filter on the two time columns that only keeps bars closing before
    [cutoff] does not see the overwriting. *)
Lemma filter_overwrite cutoff (p : price) (keep : Z -> Z -> bool) df :
  (forall o c, keep o c = true -> c < cutoff) ->
  filter (fun b => keep (OpenTime b) (CloseTime b))
         (overwrite_from cutoff p df) =
  filter (fun b => keep (OpenTime b) (CloseTime b)) df.
Proof.
  intros Hkeep. induction df as [|b df IH]; [reflexivity|].
  cbn [overwrite_from map filter]. fold (overwrite_from cutoff p df).
  rewrite IH.
  destruct (Z.leb_spec cutoff (CloseTime b)) as [Hge|Hlt];
    cbn [OpenTime CloseTime].
  - destruct (keep (OpenTime b) (CloseTime b)) eqn:E; [|reflexivity].
    apply Hkeep in E. lia.
  - reflexivity.
Qed.

Lemma block_body_overwrite cutoff (p : price) df current_date acc :
  current_date + Timedelta_days SPLIT_PER_DAY <= cutoff ->
  block_body (overwrite_from cutoff p df) current_date acc =
  block_body df current_date acc.
Proof.
  intros Hc. unfold block_body, training_df, validation_df.
  rewrite (filter_overwrite cutoff p
             (fun o c => (current_date <=? o)
                         && (c <? current_date + Timedelta_days TRAINING_DAY))).
  - rewrite (filter_overwrite cutoff p
             (fun o c =>
                (current_date + Timedelta_days TRAINING_DAY <=? o)
                && (c <? current_date + Timedelta_days SPLIT_PER_DAY))).
    + reflexivity.
    + intros o c H. apply andb_true_iff in H as [_ H].
      apply Z.ltb_lt in H. lia.
  - intros o c H. apply andb_true_iff in H as [_ H].
    apply Z.ltb_lt in H.
    assert (Timedelta_days TRAINING_DAY < Timedelta_days SPLIT_PER_DAY)
      by reflexivity.
    lia.
Qed.

(** C4. With [start], what [min()] returns, the [OpenTime] of some
    bar that no bar opens before, and [end], what [max()] returns, the
    [CloseTime] of some bar that no bar closes after: the partitioner is
    the fold of the loop body, stopping at the first pass that raises,
    over the block starts [start + k * 23 days] where [k] ranges over
    exactly the naturals with [start + k * 23 days + 23 days <= end];
    each block begins where the one before ends, and what is left after
    the last block is shorter than 23 days. Every bar in a slice of a
    block opens and closes inside that block, so a bar that closes in the
    trailing span is in no slice; and overwriting the prices of all such
    bars changes neither result. *)
Theorem partition_walk df start_date end_date :
  series_min (map OpenTime df) = Some start_date ->
  series_max (map CloseTime df) = Some end_date ->
  let B := Timedelta_days 23 in
  let n := block_count start_date end_date in
  let cutoff := start_date + B * Z.of_nat n in
  ((exists b, In b df /\ OpenTime b = start_date) /\
   (forall b, In b df -> start_date <= OpenTime b) /\
   (exists b, In b df /\ CloseTime b = end_date) /\
   (forall b, In b df -> CloseTime b <= end_date)) /\
  split_train_validation df =
    run_blocks df (block_starts start_date end_date)
               (empty_dataset, empty_dataset) /\
  block_starts start_date end_date =
    map (fun k => start_date + B * Z.of_nat k) (seq 0 n) /\
  (forall k : nat,
     (k < n)%nat <-> start_date + B * Z.of_nat k + B <= end_date) /\
  end_date < cutoff + B /\
  (forall c b,
     In c (block_starts start_date end_date) ->
     In b (training_df df c) \/ In b (validation_df df c) ->
     c <= OpenTime b /\ CloseTime b < c + B /\ CloseTime b < cutoff) /\
  (forall p,
     split_train_validation (overwrite_from cutoff p df) =
     split_train_validation df).
Proof.
  intros Hmin Hmax B n cutoff.
  assert (HB : B = Timedelta_days SPLIT_PER_DAY) by reflexivity.
  assert (Hpos : 0 < B) by reflexivity.
  assert (Hend : forall c, In c (block_starts start_date end_date) ->
                           c + B <= cutoff).
  { intros c Hc. apply in_block_starts in Hc as [k [-> Hk]].
    fold n in Hk. subst cutoff. rewrite <- HB.
    assert (B * (Z.of_nat k + 1) <= B * Z.of_nat n)
      by (apply Z.mul_le_mono_nonneg_l; lia).
    lia. }
  split; [now apply span_ends|].
  split; [now apply split_run|].
  split; [reflexivity|].
  split; [intros k; apply block_count_lt_iff|].
  split.
  - destruct (Z_lt_dec end_date (cutoff + B)) as [|Hge]; [assumption|].
    exfalso.
    assert (Hn : (n < n)%nat); [|lia].
    apply block_count_lt_iff. fold n. rewrite <- HB. fold cutoff. lia.
  - split.
    + intros c b Hc Hb. specialize (Hend c Hc).
      assert (Timedelta_days TRAINING_DAY < B) by reflexivity.
      assert (0 < Timedelta_days TRAINING_DAY) by reflexivity.
      destruct Hb as [Hb|Hb];
        [apply in_training_df in Hb | apply in_validation_df in Hb];
        rewrite <- ?HB in Hb; lia.
    + intros p. unfold split_train_validation.
      rewrite overwrite_OpenTime, overwrite_CloseTime, Hmin, Hmax.
      unfold ms_timestamp_to_datetime.
      rewrite !(while_blocks_run _ _ (block_count start_date end_date))
        by reflexivity.
      apply for_each_ext_in. intros c acc Hc.
      apply block_body_overwrite. rewrite <- HB. now apply Hend.
Qed.

End PartitionerClaims.

Section PartitionerOutcomes.

Context {price : Type}.
Implicit Types (df : DataFrame price) (d : Dataset price).

(** C8. A frame whose span from the minimum [OpenTime] to the maximum
    [CloseTime] is shorter than 23 days, and the frame without rows:
    the partitioner returns, without raising, the two Datasets of
    [empty_dataset()], each of size 0. *)
Theorem short_span_empty df :
  (forall start_date end_date,
     series_min (map OpenTime df) = Some start_date ->
     series_max (map CloseTime df) = Some end_date ->
     end_date - start_date < Timedelta_days 23) ->
  split_train_validation df = Ok (empty_dataset, empty_dataset) /\
  sizes (split_train_validation df) = Some (0, 0) /\
  split_train_validation (@nil (Bar price)) =
    Ok (empty_dataset, empty_dataset).
Proof.
  intros Hspan.
  assert (H : split_train_validation df = Ok (empty_dataset, empty_dataset)).
  { destruct (span_cases df) as [->|[s [e [Hmin Hmax]]]]; [reflexivity|].
    rewrite (split_run df s e Hmin Hmax).
    specialize (Hspan s e Hmin Hmax).
    rewrite block_starts_nil; [reflexivity|].
    change SPLIT_PER_DAY with 23. lia. }
  split; [exact H|]. split; [now rewrite H | reflexivity].
Qed.

Lemma add_Ok_inv (a c : Dataset price) (v : pyvalue price) :
  add a v = Ok c -> exists b, v = IsDataset b /\ c = concat a b.
Proof.
  destruct v as [|b]; [discriminate|]. intros H. exists b.
  split; [reflexivity|].
  unfold add, Dataset__add__, np_concatenate in H.
  destruct (dims_eqb (dims (X a)) (dims (X b))); [|discriminate].
  destruct (dims_eqb (dims (Y a)) (dims (Y b))); [|discriminate].
  cbn [bind] in H. now injection H as <-.
Qed.

Lemma sampler_Ok_inv df d :
  sliding_window_sample_datapoints df = Ok (IsDataset d) ->
  BAR_PER_DATAPOINT <= len df /\ d = sampled df.
Proof.
  intros H.
  destruct (Z_lt_dec (len df) BAR_PER_DATAPOINT) as [Hshort|Hlong].
  - rewrite sampler_short in H by assumption. discriminate.
  - rewrite sampler_long in H by lia. split; [lia|]. congruence.
Qed.

(** The partitioner returns exactly when no block of the walk has a
    short slice, and raises [TypeError] otherwise. *)
Lemma split_outcome df :
  (exists t v,
     split_train_validation df = Ok (t, v) /\
     well_shaped t /\ well_shaped v /\ paired t /\ paired v) \/
  (split_train_validation df = Raise TypeError /\
   exists start_date end_date,
     series_min (map OpenTime df) = Some start_date /\
     series_max (map CloseTime df) = Some end_date /\
     Exists (short_slice df) (block_starts start_date end_date)).
Proof.
  destruct (span_cases df) as [->|[s [e [Hmin Hmax]]]].
  - left. exists empty_dataset, empty_dataset.
    repeat split; reflexivity.
  - rewrite (split_run df s e Hmin Hmax).
    destruct (run_blocks_outcome df (block_starts s e)
                empty_dataset empty_dataset)
      as [[Hex Hr]|[_ Hr]];
      try apply empty_well_shaped; try apply empty_paired.
    + right. split; [exact Hr|]. now exists s, e.
    + left. exact Hr.
Qed.

(** C9. [len(X) == len(Y)] holds of [empty_dataset()], of every
    Dataset the sampler returns, of every Dataset [a + b] returns when it
    holds of [a] and [b], and of the two Datasets the partitioner
    returns. *)
Theorem datasets_paired :
  paired (@empty_dataset price) /\
  (forall df d,
     sliding_window_sample_datapoints df = Ok (IsDataset d) -> paired d) /\
  (forall a b c : Dataset price,
     paired a -> paired b -> add a (IsDataset b) = Ok c -> paired c) /\
  (forall df training_data validation_data,
     split_train_validation df = Ok (training_data, validation_data) ->
     paired training_data /\ paired validation_data).
Proof.
  split; [apply empty_paired|].
  split; [|split].
  - intros df d H. apply sampler_Ok_inv in H as [_ ->]. apply sampled_paired.
  - intros a b c Pa Pb H. apply add_Ok_inv in H as [b' [[= <-] ->]].
    now apply concat_paired.
  - intros df t v H.
    destruct (split_outcome df) as [[t' [v' [H' [_ [_ [Pt Pv]]]]]]|[H' _]];
      rewrite H in H'; [|discriminate].
    injection H' as <- <-. now split.
Qed.

(** C10. When the walk has a block (the span holds at least one full
    block) with a training or a validation slice of fewer than 192 rows,
    the partitioner raises [TypeError]: on such a slice the sampler
    returns the list literal, for which [Dataset.__add__] returns
    [NotImplemented], and the addition raises. *)
Theorem short_slice_raises df start_date end_date cursor :
  series_min (map OpenTime df) = Some start_date ->
  series_max (map CloseTime df) = Some end_date ->
  In cursor (block_starts start_date end_date) ->
  len (training_df df cursor) < 192 \/ len (validation_df df cursor) < 192 ->
  start_date + Timedelta_days 23 <= end_date /\
  split_train_validation df = Raise TypeError /\
  (forall slice : DataFrame price,
     len slice < 192 ->
     sliding_window_sample_datapoints slice = Ok EmptyList) /\
  (forall acc : Dataset price,
     Dataset__add__ acc EmptyList = Ok NotImplemented /\
     add acc EmptyList = Raise TypeError).
Proof.
  intros Hmin Hmax Hin Hshort.
  split; [|split; [|split]].
  - apply in_block_starts in Hin as [k [_ Hk]].
    assert (H0 : (0 < block_count start_date end_date)%nat) by lia.
    apply block_count_lt_iff in H0.
    change SPLIT_PER_DAY with 23 in H0. lia.
  - rewrite (split_run df start_date end_date Hmin Hmax).
    destruct (run_blocks_outcome df (block_starts start_date end_date)
                empty_dataset empty_dataset)
      as [[_ Hr]|[Hall _]];
      try apply empty_well_shaped; try apply empty_paired.
    + exact Hr.
    + exfalso. rewrite Forall_forall in Hall. now apply (Hall cursor).
  - intros slice Hlen. now apply sampler_short.
  - intros acc. split; reflexivity.
Qed.

End PartitionerOutcomes.

(** ** Moving a frame in time *)

Section Shift.

Context {price : Type}.
Implicit Types (df : DataFrame price) (d : Dataset price).

Lemma fold_min_shift t (l : list Z) : forall a,
  fold_left Z.min (map (Z.add t) l) (t + a) = t + fold_left Z.min l a.
Proof.
  induction l as [|x l IH]; intros a; [reflexivity|].
  cbn [map fold_left]. rewrite Z.add_min_distr_l. apply IH.
Qed.

Lemma fold_max_shift t (l : list Z) : forall a,
  fold_left Z.max (map (Z.add t) l) (t + a) = t + fold_left Z.max l a.
Proof.
  induction l as [|x l IH]; intros a; [reflexivity|].
  cbn [map fold_left]. rewrite Z.add_max_distr_l. apply IH.
Qed.

Lemma series_min_shift t (l : list Z) :
  series_min (map (Z.add t) l) = option_map (Z.add t) (series_min l).
Proof.
  destruct l as [|a l]; [reflexivity|].
  cbn [map series_min option_map]. now rewrite fold_min_shift.
Qed.

Lemma series_max_shift t (l : list Z) :
  series_max (map (Z.add t) l) = option_map (Z.add t) (series_max l).
Proof.
  destruct l as [|a l]; [reflexivity|].
  cbn [map series_max option_map]. now rewrite fold_max_shift.
Qed.

Lemma iloc_map {A B : Type} (f : A -> B) (l : list A) lo hi :
  iloc (map f l) lo hi = map f (iloc l lo hi).
Proof.
  unfold iloc. rewrite len_map, skipn_map, firstn_map. reflexivity.
Qed.

Lemma values_shift t (b : Bar price) :
  values_2_6 (shift_time t b) = values_2_6 b.
Proof. reflexivity. Qed.

Lemma sampled_shift t df : sampled (map (shift_time t) df) = sampled df.
Proof.
  unfold sampled, input_rows, output_rows. rewrite len_map.
  f_equal; f_equal; apply map_ext; intros s;
    rewrite iloc_map, map_map; apply map_ext; intros b; apply values_shift.
Qed.

Lemma sampler_shift t df :
  sliding_window_sample_datapoints (map (shift_time t) df) =
  sliding_window_sample_datapoints df.
Proof.
  destruct (Z_lt_dec (len df) BAR_PER_DATAPOINT) as [Hshort|Hlong].
  - rewrite !sampler_short by (rewrite ?len_map; assumption). reflexivity.
  - rewrite !sampler_long by (rewrite ?len_map; lia).
    now rewrite sampled_shift.
Qed.

Lemma training_df_shift t df current_date :
  training_df (map (shift_time t) df) (t + current_date) =
  map (shift_time t) (training_df df current_date).
Proof.
  unfold training_df. rewrite filter_map_swap. f_equal.
  apply filter_ext. intros b. cbn [shift_time OpenTime CloseTime].
  f_equal.
  - destruct (Z.leb_spec (t + current_date) (t + OpenTime b)),
      (Z.leb_spec current_date (OpenTime b)); (reflexivity || lia).
  - destruct (Z.ltb_spec (t + CloseTime b)
                (t + current_date + Timedelta_days TRAINING_DAY)),
      (Z.ltb_spec (CloseTime b)
                (current_date + Timedelta_days TRAINING_DAY));
      (reflexivity || lia).
Qed.

Lemma validation_df_shift t df current_date :
  validation_df (map (shift_time t) df) (t + current_date) =
  map (shift_time t) (validation_df df current_date).
Proof.
  unfold validation_df. rewrite filter_map_swap. f_equal.
  apply filter_ext. intros b. cbn [shift_time OpenTime CloseTime].
  f_equal.
  - destruct (Z.leb_spec (t + current_date + Timedelta_days TRAINING_DAY)
                (t + OpenTime b)),
      (Z.leb_spec (current_date + Timedelta_days TRAINING_DAY) (OpenTime b));
      (reflexivity || lia).
  - destruct (Z.ltb_spec (t + CloseTime b)
                (t + current_date + Timedelta_days SPLIT_PER_DAY)),
      (Z.ltb_spec (CloseTime b)
                (current_date + Timedelta_days SPLIT_PER_DAY));
      (reflexivity || lia).
Qed.

Lemma block_body_shift t df current_date acc :
  block_body (map (shift_time t) df) (t + current_date) acc =
  block_body df current_date acc.
Proof.
  unfold block_body.
  now rewrite training_df_shift, validation_df_shift, !sampler_shift.
Qed.

Lemma run_blocks_shift t df : forall starts acc,
  run_blocks (map (shift_time t) df) (map (Z.add t) starts) acc =
  run_blocks df starts acc.
Proof.
  unfold run_blocks.
  induction starts as [|c starts IH]; intros acc; [reflexivity|].
  cbn [map for_each]. rewrite block_body_shift.
  destruct (block_body df c acc); cbn [bind]; [apply IH | reflexivity].
Qed.

Lemma block_starts_shift t current_date end_date :
  block_starts (t + current_date) (t + end_date) =
  map (Z.add t) (block_starts current_date end_date).
Proof.
  unfold block_starts, block_count.
  replace (t + end_date - (t + current_date))
    with (end_date - current_date) by ring.
  rewrite map_map. apply map_ext. intros k. lia.
Qed.

(** The partitioner does not depend on where the frame lies in time. *)
Lemma split_shift t df :
  split_train_validation (map (shift_time t) df) = split_train_validation df.
Proof.
  destruct (span_cases df) as [->|[s [e [Hmin Hmax]]]]; [reflexivity|].
  rewrite (split_run df s e Hmin Hmax).
  rewrite (split_run (map (shift_time t) df) (t + s) (t + e)).
  - rewrite block_starts_shift. apply run_blocks_shift.
  - rewrite map_map.
    change (map (fun b => OpenTime (shift_time t b)) df)
      with (map (fun b => t + OpenTime b) df).
    rewrite <- (map_map OpenTime (Z.add t)), series_min_shift, Hmin.
    reflexivity.
  - rewrite map_map.
    change (map (fun b => CloseTime (shift_time t b)) df)
      with (map (fun b => t + CloseTime b) df).
    rewrite <- (map_map CloseTime (Z.add t)), series_max_shift, Hmax.
    reflexivity.
Qed.

End Shift.

Lemma synthetic_bars_shift n t0 width :
  synthetic_bars n t0 width = map (shift_time t0) (synthetic_bars n 0 width).
Proof.
  unfold synthetic_bars. rewrite map_map. apply map_ext. intros i.
  unfold shift_time. cbn [OpenTime CloseTime col2 col3 col4 col5].
  f_equal; lia.
Qed.

(** ** One block of synthetic bars *)

Lemma summarise_shift t (df : DataFrame Z) cursor :
  summarise (map (shift_time t) df) (t + cursor) =
  shift_summary t (summarise df cursor).
Proof.
  unfold summarise, shift_summary. cbn [first_open last_close training_rows
    validation_rows result_sizes].
  rewrite training_df_shift, validation_df_shift, split_shift, !len_map.
  f_equal.
  - rewrite map_map.
    change (map (fun b => OpenTime (shift_time t b)) df)
      with (map (fun b => t + OpenTime b) df).
    now rewrite <- (map_map OpenTime (Z.add t)), series_min_shift.
  - rewrite map_map.
    change (map (fun b => CloseTime (shift_time t b)) df)
      with (map (fun b => t + CloseTime b) df).
    now rewrite <- (map_map CloseTime (Z.add t)), series_max_shift.
Qed.

Lemma exact_span_summary_0 :
  summarise (exact_span_bars 0) 0 =
  mkSummary (Some 0) (Some (Timedelta_days 23)) 1919 287 (Some (576, 32)).
Proof. vm_compute. reflexivity. Qed.

Lemma kline_2208_summary_0 :
  summarise (kline_bars_2208 0) 0 =
  mkSummary (Some 0) (Some (Timedelta_days 23 - 1)) 1920 288 (Some (0, 0)).
Proof. vm_compute. reflexivity. Qed.

Lemma kline_2209_summary_0 :
  summarise (kline_bars_2209 0) 0 =
  mkSummary (Some 0) (Some (Timedelta_days 23 + minutes_15 - 1))
            1920 288 (Some (577, 33)).
Proof. vm_compute. reflexivity. Qed.

Lemma synthetic_summary n t0 width :
  summarise (synthetic_bars n t0 width) t0 =
  shift_summary t0 (summarise (synthetic_bars n 0 width) 0).
Proof.
  rewrite synthetic_bars_shift, <- summarise_shift.
  now rewrite Z.add_0_r.
Qed.

Lemma exact_span_summary t0 :
  summarise (exact_span_bars t0) t0 =
  mkSummary (Some t0) (Some (t0 + Timedelta_days 23))
            1919 287 (Some (576, 32)).
Proof.
  transitivity (shift_summary t0 (summarise (exact_span_bars 0) 0));
    [exact (synthetic_summary 2208 t0 minutes_15)|].
  rewrite exact_span_summary_0. unfold shift_summary.
  cbn [first_open last_close training_rows validation_rows result_sizes
       option_map].
  f_equal. f_equal. apply Z.add_0_r.
Qed.

Lemma kline_2209_summary t0 :
  summarise (kline_bars_2209 t0) t0 =
  mkSummary (Some t0) (Some (t0 + (Timedelta_days 23 + minutes_15 - 1)))
            1920 288 (Some (577, 33)).
Proof.
  transitivity (shift_summary t0 (summarise (kline_bars_2209 0) 0));
    [exact (synthetic_summary 2209 t0 (minutes_15 - 1))|].
  rewrite kline_2209_summary_0. unfold shift_summary.
  cbn [first_open last_close training_rows validation_rows result_sizes
       option_map].
  f_equal. f_equal. apply Z.add_0_r.
Qed.

Lemma summary_fields (df : DataFrame Z) cursor s :
  summarise df cursor = s ->
  series_min (map OpenTime df) = first_open s /\
  series_max (map CloseTime df) = last_close s /\
  len (training_df df cursor) = training_rows s /\
  len (validation_df df cursor) = validation_rows s /\
  sizes (split_train_validation df) = result_sizes s.
Proof. intros <-. repeat split. Qed.

(** C5, as the code has it. For 2208 gap-free 15-minute bars that span
    exactly one 23-day block (each bar closes when the next opens) the
    single block has a training slice of 1919 bars and a validation slice
    of 287 bars, the bar that closes exactly at the upper bound of each
    slice being left out, and yields 576 training and 32 validation
    samples. The counts 577 and 33 belong to slices of 1920 and 288 bars:
    they are what 2209 bars that each close one millisecond before the
    next opens yield. *)
Theorem one_block_counts (t0 : Z) :
  (series_min (map OpenTime (exact_span_bars t0)) = Some t0 /\
   series_max (map CloseTime (exact_span_bars t0))
     = Some (t0 + Timedelta_days 23) /\
   block_starts t0 (t0 + Timedelta_days 23) = [t0] /\
   len (training_df (exact_span_bars t0) t0) = 1919 /\
   len (validation_df (exact_span_bars t0) t0) = 287 /\
   sizes (split_train_validation (exact_span_bars t0)) = Some (576, 32) /\
   (1919 - 192) / 3 + 1 = 576 /\ (287 - 192) / 3 + 1 = 32) /\
  (series_min (map OpenTime (kline_bars_2209 t0)) = Some t0 /\
   series_max (map CloseTime (kline_bars_2209 t0))
     = Some (t0 + (Timedelta_days 23 + minutes_15 - 1)) /\
   block_starts t0 (t0 + (Timedelta_days 23 + minutes_15 - 1)) = [t0] /\
   len (training_df (kline_bars_2209 t0) t0) = 1920 /\
   len (validation_df (kline_bars_2209 t0) t0) = 288 /\
   sizes (split_train_validation (kline_bars_2209 t0)) = Some (577, 33) /\
   (1920 - 192) / 3 + 1 = 577 /\ (288 - 192) / 3 + 1 = 33).
Proof.
  assert (Hstarts : forall e, block_starts 0 e = [0] ->
                              block_starts t0 (t0 + e) = [t0]).
  { intros e H. rewrite <- (Z.add_0_r t0) at 1.
    rewrite block_starts_shift, H. cbn [map]. now rewrite Z.add_0_r. }
  destruct (summary_fields _ _ _ (exact_span_summary t0))
    as [Hmin [Hmax [Ht [Hv Hs]]]].
  destruct (summary_fields _ _ _ (kline_2209_summary t0))
    as [Kmin [Kmax [Kt [Kv Ks]]]].
  cbn [first_open last_close training_rows validation_rows result_sizes]
    in Hmin, Hmax, Ht, Hv, Hs, Kmin, Kmax, Kt, Kv, Ks.
  split.
  - split; [exact Hmin|]. split; [exact Hmax|].
    split; [apply Hstarts; reflexivity|].
    split; [exact Ht|]. split; [exact Hv|]. split; [exact Hs|].
    split; reflexivity.
  - split; [exact Kmin|]. split; [exact Kmax|].
    split; [apply Hstarts; reflexivity|].
    split; [exact Kt|]. split; [exact Kv|]. split; [exact Ks|].
    split; reflexivity.
Qed.

(** C5 as stated fails on the gap-free frame that spans exactly one
    block: its slices have 1919 and 287 bars, not 1920 and 288, and it
    yields 576 and 32 samples, not 577 and 33. With bars that close one
    millisecond before the next opens, 2208 bars span less than 23 days
    and yield no sample at all. *)
Lemma exact_span_not_577_33 :
  series_min (map OpenTime (exact_span_bars 0)) = Some 0 /\
  series_max (map CloseTime (exact_span_bars 0)) = Some (Timedelta_days 23) /\
  len (training_df (exact_span_bars 0) 0) = 1919 /\
  len (validation_df (exact_span_bars 0) 0) = 287 /\
  sizes (split_train_validation (exact_span_bars 0)) = Some (576, 32) /\
  sizes (split_train_validation (exact_span_bars 0)) <> Some (577, 33) /\
  sizes (split_train_validation (kline_bars_2208 0)) = Some (0, 0) /\
  sizes (split_train_validation (kline_bars_2208 0)) <> Some (577, 33).
Proof.
  destruct (summary_fields _ _ _ exact_span_summary_0)
    as [Hmin [Hmax [Ht [Hv Hes]]]].
  destruct (summary_fields _ _ _ kline_2208_summary_0)
    as [_ [_ [_ [_ Hks]]]].
  cbn [first_open last_close training_rows validation_rows result_sizes]
    in Hmin, Hmax, Ht, Hv, Hes, Hks.
  split; [exact Hmin|]. split; [exact Hmax|].
  split; [exact Ht|]. split; [exact Hv|].
  split; [exact Hes|]. split; [rewrite Hes; discriminate|].
  split; [exact Hks | rewrite Hks; discriminate].
Qed.

(** C2 fails on the code: on a frame of fewer than 192 rows the sampler
    does not raise, but what it returns is the list literal, not a
    [Dataset]; in particular it is not [empty_dataset()]. *)
Theorem short_frame_returns_list {price : Type} (df : DataFrame price) :
  len df < 192 ->
  sliding_window_sample_datapoints df = Ok EmptyList /\
  (forall d, sliding_window_sample_datapoints df <> Ok (IsDataset d)) /\
  shape (X (@empty_dataset price)) = (0, 176, 4) /\
  shape (Y (@empty_dataset price)) = (0, 16, 4).
Proof.
  intros Hshort.
  assert (H : sliding_window_sample_datapoints df = Ok EmptyList)
    by now apply sampler_short.
  split; [exact H|]. split; [|split; reflexivity].
  intros d Hd. rewrite H in Hd. discriminate.
Qed.

(** ** The statements at concrete frames *)

Lemma sampler_sample_count_192 :
  len bars_192 = 192 /\
  exists v,
    sliding_window_sample_datapoints bars_192 = Ok v /\ sample_count v = 1.
Proof.
  split; [reflexivity|].
  destruct (sampler_sample_count bars_192) as [v [Hv [_ [_ [H192 _]]]]].
  exists v. split; [exact Hv | apply H192; reflexivity].
Defined.

Lemma short_frame_returns_list_191 :
  len bars_191 < 192 /\
  sliding_window_sample_datapoints bars_191 = Ok EmptyList.
Proof.
  assert (H : len bars_191 < 192) by reflexivity.
  split; [exact H | apply (short_frame_returns_list bars_191 H)].
Defined.

Lemma block_slices_seam :
  let b := mkBar (Timedelta_days 20 - minutes_15) (Timedelta_days 20) 5 6 7 8 in
  In b seam_bars /\
  CloseTime b = 0 + Timedelta_days 20 /\
  ~ In b (training_df seam_bars 0).
Proof.
  intros b.
  assert (Hclose : CloseTime b = 0 + Timedelta_days 20) by reflexivity.
  split; [right; left; reflexivity|]. split; [exact Hclose|].
  destruct (block_slices seam_bars 0 b) as [_ [_ [Hseam _]]].
  exact (Hseam Hclose).
Defined.

Lemma partition_walk_2300 :
  series_min (map OpenTime kline_bars_2300) = Some 0 /\
  series_max (map CloseTime kline_bars_2300) = Some 2069999999 /\
  (forall b, In b kline_bars_2300 ->
             0 <= OpenTime b /\ CloseTime b <= 2069999999) /\
  block_starts 0 2069999999 = [0] /\
  split_train_validation (overwrite_from (Timedelta_days 23) 7 kline_bars_2300)
  = split_train_validation kline_bars_2300.
Proof.
  assert (Hmin : series_min (map OpenTime kline_bars_2300) = Some 0)
    by (vm_compute; reflexivity).
  assert (Hmax : series_max (map CloseTime kline_bars_2300) = Some 2069999999)
    by (vm_compute; reflexivity).
  destruct (partition_walk kline_bars_2300 0 2069999999 Hmin Hmax)
    as [[_ [Hfirst [_ Hlast]]] [_ [_ [_ [_ [_ Hover]]]]]].
  split; [exact Hmin|]. split; [exact Hmax|].
  split; [intros b Hb; split; [now apply Hfirst | now apply Hlast]|].
  split; [reflexivity | exact (Hover 7)].
Defined.

Lemma sampler_windows_200 :
  192 <= len priced_bars_200 /\
  exists d x y,
    sliding_window_sample_datapoints priced_bars_200 = Ok (IsDataset d) /\
    nth_error (items (X d)) 2 = Some x /\
    nth_error (items (Y d)) 2 = Some y /\
    nth_error x 0 = Some [24; 25; 26; 27] /\
    nth_error x 175 = Some [724; 725; 726; 727] /\
    nth_error y 0 = Some [728; 729; 730; 731] /\
    nth_error y 15 = Some [788; 789; 790; 791] /\
    len x = 176 /\ len y = 16.
Proof.
  assert (Hlen : 192 <= len priced_bars_200) by (vm_compute; discriminate).
  split; [exact Hlen|].
  destruct (sampler_windows priced_bars_200 Hlen) as [d [Hd [HX [_ Hk]]]].
  assert (H2 : Z.of_nat 2 < len (items (X d))).
  { destruct (sampler_Ok_inv _ _ Hd) as [_ ->]. vm_compute. reflexivity. }
  destruct (Hk 2%nat H2) as [_ [Hin [Hout [[Hx _] [[Hy _] _]]]]].
  eexists d, _, _.
  split; [exact Hd|]. split; [exact Hin|]. split; [exact Hout|].
  split; [reflexivity|]. split; [reflexivity|].
  split; [reflexivity|]. split; [reflexivity|].
  split; [exact Hx | exact Hy].
Defined.

Lemma concat_monoid_sampled :
  let A := sampled bars_192 in
  let B := sampled bars_200 in
  (well_shaped A /\ well_shaped B /\ well_shaped (@empty_dataset Z)) /\
  add empty_dataset (IsDataset A) = Ok A /\
  add A (IsDataset empty_dataset) = Ok A /\
  exists AB,
    add A (IsDataset B) = Ok AB /\
    len (items (X AB)) = len (items (X A)) + len (items (X B)).
Proof.
  intros A B.
  assert (HA : well_shaped A) by (split; reflexivity).
  assert (HB : well_shaped B) by (split; reflexivity).
  assert (HE : well_shaped (@empty_dataset Z)) by (split; reflexivity).
  split; [now repeat split|].
  destruct (concat_monoid A B empty_dataset HA HB HE)
    as [_ [Hl [Hr [AB [Hadd [_ [_ [_ [Hlen _]]]]]]]]].
  split; [exact Hl|]. split; [exact Hr|].
  exists AB. split; [exact Hadd | exact Hlen].
Defined.

Lemma short_span_empty_200 :
  (forall start_date end_date,
     series_min (map OpenTime bars_200) = Some start_date ->
     series_max (map CloseTime bars_200) = Some end_date ->
     end_date - start_date < Timedelta_days 23) /\
  split_train_validation bars_200 = Ok (empty_dataset, empty_dataset).
Proof.
  assert (Hspan : forall start_date end_date,
     series_min (map OpenTime bars_200) = Some start_date ->
     series_max (map CloseTime bars_200) = Some end_date ->
     end_date - start_date < Timedelta_days 23).
  { intros s e Hs He. vm_compute in Hs, He.
    injection Hs as <-. injection He as <-. reflexivity. }
  split; [exact Hspan|].
  exact (proj1 (short_span_empty bars_200 Hspan)).
Defined.

Lemma datasets_paired_200 :
  sliding_window_sample_datapoints bars_200
    = Ok (IsDataset (sampled bars_200)) /\
  paired (sampled bars_200) /\
  exists training_data validation_data,
    split_train_validation (kline_bars_2209 0)
      = Ok (training_data, validation_data) /\
    paired training_data /\ paired validation_data.
Proof.
  assert (Hs : sliding_window_sample_datapoints bars_200
               = Ok (IsDataset (sampled bars_200)))
    by (vm_compute; reflexivity).
  destruct (@datasets_paired Z) as [_ [Hsampler [_ Hsplit]]].
  split; [exact Hs|]. split; [exact (Hsampler _ _ Hs)|].
  destruct (summary_fields _ _ _ kline_2209_summary_0)
    as [_ [_ [_ [_ Hsizes]]]].
  destruct (split_train_validation (kline_bars_2209 0))
    as [[training_data validation_data]|e] eqn:Hp.
  - exists training_data, validation_data.
    split; [reflexivity | exact (Hsplit _ _ _ Hp)].
  - discriminate Hsizes.
Defined.

Lemma short_slice_raises_seam :
  series_min (map OpenTime seam_bars) = Some 0 /\
  series_max (map CloseTime seam_bars)
    = Some (Timedelta_days 23 + minutes_15) /\
  In 0 (block_starts 0 (Timedelta_days 23 + minutes_15)) /\
  len (training_df seam_bars 0) < 192 /\
  split_train_validation seam_bars = Raise TypeError.
Proof.
  assert (Hmin : series_min (map OpenTime seam_bars) = Some 0)
    by reflexivity.
  assert (Hmax : series_max (map CloseTime seam_bars)
                 = Some (Timedelta_days 23 + minutes_15)) by reflexivity.
  assert (Hin : In 0 (block_starts 0 (Timedelta_days 23 + minutes_15)))
    by (left; reflexivity).
  assert (Hshort : len (training_df seam_bars 0) < 192) by reflexivity.
  split; [exact Hmin|]. split; [exact Hmax|]. split; [exact Hin|].
  split; [exact Hshort|].
  destruct (short_slice_raises seam_bars 0 (Timedelta_days 23 + minutes_15) 0
              Hmin Hmax Hin (or_introl Hshort)) as [_ [Hraise _]].
  exact Hraise.
Defined.

(** ** Further properties of concatenation and of the sampler *)

Section SamplerExtras.

Context {price : Type}.
Implicit Types (df : DataFrame price) (d : Dataset price).

Lemma add_mismatch (a b : Dataset price) :
  dims_eqb (dims (X a)) (dims (X b)) && dims_eqb (dims (Y a)) (dims (Y b))
    = false ->
  add a (IsDataset b) = Raise ValueError.
Proof.
  intros H. unfold add, Dataset__add__, np_concatenate.
  destruct (dims_eqb (dims (X a)) (dims (X b))); [|reflexivity].
  destruct (dims_eqb (dims (Y a)) (dims (Y b))); [discriminate|reflexivity].
Qed.

Lemma add_match (a b : Dataset price) :
  dims_eqb (dims (X a)) (dims (X b)) && dims_eqb (dims (Y a)) (dims (Y b))
    = true ->
  add a (IsDataset b) = Ok (concat a b).
Proof.
  intros H. apply andb_true_iff in H as [HX HY].
  apply add_Dataset; now apply dims_eqb_eq.
Qed.

(** X1. [(A + B) + C] and [A + (B + C)] have the same outcome for all
    Datasets, whether they return or raise: both return the samples of
    [A], [B] and [C] in this order when the three agree on the trailing
    shapes of [X] and of [Y], and both raise [ValueError] otherwise. *)
Theorem add_associative (A B C : Dataset price) :
  let agree (a b : Dataset price) :=
    dims_eqb (dims (X a)) (dims (X b)) && dims_eqb (dims (Y a)) (dims (Y b)) in
  (AB <- add A (IsDataset B) ;; add AB (IsDataset C)) =
  (BC <- add B (IsDataset C) ;; add A (IsDataset BC)) /\
  (AB <- add A (IsDataset B) ;; add AB (IsDataset C)) =
  (if agree A B && agree B C
   then Ok (concat (concat A B) C)
   else Raise ValueError).
Proof.
  intros agree. split; [apply add_assoc|].
  destruct (agree A B) eqn:HAB; subst agree; cbn beta in *.
  - rewrite (add_match A B HAB). cbn [bind andb].
    assert (Hd : dims (X (concat A B)) = dims (X A) /\
                 dims (Y (concat A B)) = dims (Y A)) by (split; reflexivity).
    apply andb_true_iff in HAB as [HX HY].
    apply dims_eqb_eq in HX, HY.
    destruct (dims_eqb (dims (X B)) (dims (X C))
              && dims_eqb (dims (Y B)) (dims (Y C))) eqn:HBC.
    + apply add_match. destruct Hd as [-> ->]. now rewrite HX, HY.
    + apply add_mismatch. destruct Hd as [-> ->]. now rewrite HX, HY.
  - rewrite (add_mismatch A B HAB). reflexivity.
Qed.

Lemma sampled_by_prices (df1 df2 : DataFrame price) :
  map values_2_6 df1 = map values_2_6 df2 ->
  len df1 = len df2 /\ sampled df1 = sampled df2.
Proof.
  intros H.
  assert (Hlen : len df1 = len df2).
  { rewrite <- (len_map values_2_6 df1), <- (len_map values_2_6 df2).
    now rewrite H. }
  split; [exact Hlen|].
  unfold sampled, input_rows, output_rows. rewrite Hlen.
  f_equal; f_equal; apply map_ext; intros s;
    now rewrite <- !iloc_map, H.
Qed.

(** X2. The sampler reads nothing but the four price columns: two
    frames with the same rows of prices give the same result, whatever
    their timestamps are. In particular it does not check that the bars
    of a slice follow each other without a gap. *)
Theorem sampler_reads_prices_only (df1 df2 : DataFrame price) :
  map values_2_6 df1 = map values_2_6 df2 ->
  sliding_window_sample_datapoints df1 = sliding_window_sample_datapoints df2.
Proof.
  intros H. destruct (sampled_by_prices df1 df2 H) as [Hlen Hs].
  destruct (Z_lt_dec (len df1) BAR_PER_DATAPOINT) as [Hshort|Hlong].
  - rewrite !sampler_short by (rewrite <- ?Hlen; assumption). reflexivity.
  - rewrite !sampler_long by (rewrite <- ?Hlen; lia). now rewrite Hs.
Qed.

End SamplerExtras.

Section WindowExtras.

Context {price : Type}.
Implicit Types (df rest : DataFrame price) (d : Dataset price).

Lemma iloc_app_l {A : Type} (l r : list A) a b :
  0 <= a -> a <= b -> b <= len l ->
  iloc (l ++ r) (Some a) (Some b) = iloc l (Some a) (Some b).
Proof.
  intros Ha Hab Hb.
  rewrite !iloc_inner by (rewrite ?len_app; unfold len in *; lia).
  rewrite skipn_app, firstn_app.
  replace (Z.to_nat a - length l)%nat with O by (unfold len in *; lia).
  replace (Z.to_nat (b - a) - length (skipn (Z.to_nat a) l))%nat with O
    by (rewrite length_skipn; unfold len in *; lia).
  cbn [skipn firstn]. now rewrite app_nil_r.
Qed.

Lemma rows_app df rest s :
  0 <= s -> s + BAR_PER_DATAPOINT <= len df ->
  input_rows (df ++ rest) s = input_rows df s /\
  output_rows (df ++ rest) s = output_rows df s.
Proof.
  intros Hs Hfit. unfold input_rows, output_rows.
  rewrite !iloc_app_l by (constants; lia). now split.
Qed.

Lemma window_count_nonneg L :
  BAR_PER_DATAPOINT <= L -> 0 <= (L - BAR_PER_DATAPOINT) / 3.
Proof. intros H. apply Z.div_pos; lia. Qed.

(** The samples of a frame, then those of the windows that reach into
    the rows appended to it. *)
Lemma sampled_app df rest :
  BAR_PER_DATAPOINT <= len df ->
  exists later_X later_Y,
    let later :=
      {| X := {| dims := (INPUT_BAR_PER_DATAPOINT, DIMENSION_PER_BAR);
                 items := later_X |};
         Y := {| dims := (OUTPUT_BAR_PER_DATAPOINT, DIMENSION_PER_BAR);
                 items := later_Y |} |} in
    sampled (df ++ rest) = concat (sampled df) later /\
    len later_X = (len df + len rest - BAR_PER_DATAPOINT) / 3
                  - (len df - BAR_PER_DATAPOINT) / 3 /\
    len later_Y = len later_X.
Proof.
  intros Hlong.
  set (n := Z.to_nat ((len df - BAR_PER_DATAPOINT) / 3 + 1)).
  set (m := Z.to_nat ((len df + len rest - BAR_PER_DATAPOINT) / 3
                      - (len df - BAR_PER_DATAPOINT) / 3)).
  pose proof (window_count_nonneg (len df) Hlong) as Hq.
  assert (Hmono : (len df - BAR_PER_DATAPOINT) / 3
                  <= (len df + len rest - BAR_PER_DATAPOINT) / 3).
  { apply Z.div_le_mono; [lia|]. unfold len. lia. }
  assert (Hstarts :
    range 0 (len (df ++ rest) - BAR_PER_DATAPOINT + 1) 3 =
    range 0 (len df - BAR_PER_DATAPOINT + 1) 3
    ++ map (fun k => 3 * Z.of_nat k) (seq n m)).
  { rewrite !window_starts by (rewrite ?len_app; unfold len in *; lia).
    rewrite len_app.
    replace (Z.to_nat ((len df + len rest - BAR_PER_DATAPOINT) / 3 + 1))
      with (n + m)%nat by (subst n m; lia).
    rewrite seq_app, map_app. reflexivity. }
  exists (map (input_rows (df ++ rest))
              (map (fun k => 3 * Z.of_nat k) (seq n m))),
         (map (output_rows (df ++ rest))
              (map (fun k => 3 * Z.of_nat k) (seq n m))).
  cbn zeta. split; [|split].
  - unfold sampled, concat. cbn [X Y dims items].
    rewrite Hstarts, !map_app.
    f_equal; f_equal; f_equal; apply map_ext_in; intros s Hin;
      pose proof (window_starts_fit (len df) Hlong) as Hfit;
      rewrite Forall_forall in Hfit; destruct (Hfit s Hin) as [H0 H1];
      now apply rows_app.
  - rewrite !len_map. unfold len at 1. rewrite length_seq. subst m. lia.
  - now rewrite !len_map.
Qed.

(** X3. Appending rows to a frame of at least 192 rows leaves the
    samples it already gives in place: the result for the longer frame
    is the result for the frame followed by the samples of the
    [floor((L + R - 192) / 3) - floor((L - 192) / 3)] later windows. *)
Theorem sampler_append df rest :
  192 <= len df ->
  exists later : Dataset price,
    sliding_window_sample_datapoints df = Ok (IsDataset (sampled df)) /\
    sliding_window_sample_datapoints (df ++ rest) =
      Ok (IsDataset (concat (sampled df) later)) /\
    well_shaped later /\ paired later /\
    len (items (X later)) =
      (len df + len rest - 192) / 3 - (len df - 192) / 3.
Proof.
  intros Hlong. change 192 with BAR_PER_DATAPOINT in *.
  destruct (sampled_app df rest Hlong) as [lx [ly [Happ [Hlx Hly]]]].
  cbn zeta in Happ.
  eexists. split; [now apply sampler_long|].
  split; [|split; [|split]].
  - rewrite sampler_long by (rewrite len_app; unfold len in *; lia).
    rewrite Happ. reflexivity.
  - split; reflexivity.
  - unfold paired. cbn [X Y items]. now rewrite Hly.
  - exact Hlx.
Qed.

Lemma rows_used_bounds L :
  BAR_PER_DATAPOINT <= L ->
  BAR_PER_DATAPOINT <= rows_used L <= L /\
  L - rows_used L = (L - BAR_PER_DATAPOINT) mod 3 /\
  0 <= L - rows_used L < 3.
Proof.
  intros H. unfold rows_used.
  pose proof (Z.div_mod (L - BAR_PER_DATAPOINT) 3 ltac:(lia)).
  pose proof (Z.mod_pos_bound (L - BAR_PER_DATAPOINT) 3 ltac:(lia)).
  pose proof (window_count_nonneg L H). lia.
Qed.

Lemma rows_used_idem L : rows_used (rows_used L) = rows_used L.
Proof.
  unfold rows_used. set (q := (L - BAR_PER_DATAPOINT) / 3).
  replace (BAR_PER_DATAPOINT + 3 * q - BAR_PER_DATAPOINT) with (q * 3)
    by ring.
  now rewrite Z.div_mul by lia.
Qed.

Lemma sampled_short_tail df rest :
  BAR_PER_DATAPOINT <= len df ->
  len df = rows_used (len df) -> len rest < 3 ->
  sampled (df ++ rest) = sampled df.
Proof.
  intros Hlong Hused Hrest.
  destruct (sampled_app df rest Hlong) as [lx [ly [Happ [Hlx Hly]]]].
  cbn zeta in Happ. rewrite Happ.
  assert (Hq : (len df + len rest - BAR_PER_DATAPOINT) / 3
               = (len df - BAR_PER_DATAPOINT) / 3).
  { unfold rows_used in Hused.
    set (q := (len df - BAR_PER_DATAPOINT) / 3) in *.
    replace (len df + len rest - BAR_PER_DATAPOINT)
      with (len rest + q * 3) by lia.
    rewrite Z.div_add by lia.
    rewrite Z.div_small by (unfold len in *; lia). lia. }
  assert (lx = [])
    by (destruct lx; [reflexivity | unfold len in *; simpl in *; lia]).
  assert (ly = [])
    by (destruct ly; [reflexivity | unfold len in *; simpl in *; lia]).
  subst lx ly. unfold concat, sampled. cbn [X Y dims items].
  now rewrite !app_nil_r.
Qed.

(** X4. Of a frame of [L >= 192] rows the sampler uses the first
    [192 + 3 * floor((L - 192) / 3)] only: the last [(L - 192) mod 3]
    rows are in no window, and the result is that of the frame cut
    after the rows used, whatever fewer than 3 rows follow them. *)
Theorem sampler_drops_remainder df :
  192 <= len df ->
  let used := rows_used (len df) in
  192 <= used <= len df /\
  len df - used = (len df - 192) mod 3 /\
  sliding_window_sample_datapoints (iloc df None (Some used)) =
    sliding_window_sample_datapoints df /\
  (forall rest,
     len rest < 3 ->
     sliding_window_sample_datapoints (iloc df None (Some used) ++ rest) =
     sliding_window_sample_datapoints df).
Proof.
  intros Hlong used. change 192 with BAR_PER_DATAPOINT in *.
  pose proof BAR_PER_DATAPOINT_eq as HBAR.
  destruct (rows_used_bounds (len df) Hlong) as [Hb [Hmod Hlt]].
  fold used in Hb, Hmod, Hlt.
  set (head := iloc df None (Some used)).
  assert (Hhead : head = firstn (Z.to_nat used) df).
  { subst head. unfold iloc, slice_bound.
    destruct (Z.ltb_spec used 0); [lia|].
    rewrite Z.min_l by lia. cbn [skipn Z.to_nat]. f_equal. lia. }
  assert (Hlen : len head = used).
  { rewrite Hhead. unfold len in *. rewrite length_firstn. lia. }
  assert (Hfix : len head = rows_used (len head)).
  { rewrite Hlen. subst used. symmetry. apply rows_used_idem. }
  assert (Htail : forall rest, len rest < 3 ->
            sliding_window_sample_datapoints (head ++ rest) =
            sliding_window_sample_datapoints head).
  { intros rest Hrest.
    rewrite !sampler_long by (rewrite ?len_app; unfold len in *; lia).
    rewrite sampled_short_tail by (assumption || lia). reflexivity. }
  assert (Hdf : df = head ++ skipn (Z.to_nat used) df)
    by (rewrite Hhead; symmetry; apply firstn_skipn).
  assert (Hsame : sliding_window_sample_datapoints head =
                  sliding_window_sample_datapoints df).
  { transitivity (sliding_window_sample_datapoints
                    (head ++ skipn (Z.to_nat used) df)).
    - symmetry. apply Htail. unfold len in *. rewrite length_skipn. lia.
    - now rewrite <- Hdf. }
  split; [exact Hb|]. split; [exact Hmod|]. split; [exact Hsame|].
  intros rest Hrest. rewrite <- Hsame. now apply Htail.
Qed.

End WindowExtras.

Section OverlapExtras.

Context {price : Type}.
Implicit Types (df : DataFrame price) (d : Dataset price).

Lemma sampled_nth df (k : nat) :
  3 * Z.of_nat k + BAR_PER_DATAPOINT <= len df ->
  nth_error (items (X (sampled df))) k = Some (input_rows df (3 * Z.of_nat k))
  /\
  nth_error (items (Y (sampled df))) k
    = Some (output_rows df (3 * Z.of_nat k)).
Proof.
  intros Hfit.
  assert (Hlong : BAR_PER_DATAPOINT <= len df) by lia.
  assert (Hk : Z.of_nat k <= (len df - BAR_PER_DATAPOINT) / 3)
    by (apply Z.div_le_lower_bound; lia).
  assert (Hnth : nth_error (range 0 (len df - BAR_PER_DATAPOINT + 1) 3) k
                 = Some (3 * Z.of_nat k)).
  { rewrite window_starts by assumption.
    rewrite nth_error_map, nth_error_seq.
    destruct (Nat.ltb_spec k
                (Z.to_nat ((len df - BAR_PER_DATAPOINT) / 3 + 1))); [|lia].
    reflexivity. }
  unfold sampled. cbn [X Y items].
  now rewrite !nth_error_map, Hnth.
Qed.

(** X5. Sample [k + 1] repeats all but 3 rows of sample [k]: rows
    [3..175] of [X[k]] are rows [0..172] of [X[k+1]], the last 3 rows of
    [X[k+1]] are the first 3 rows of [Y[k]], and rows [3..15] of [Y[k]]
    are rows [0..12] of [Y[k+1]]. *)
Theorem consecutive_samples_overlap df (k : nat) :
  3 * Z.of_nat k + 3 + 192 <= len df ->
  exists d xk yk xk1 yk1,
    sliding_window_sample_datapoints df = Ok (IsDataset d) /\
    nth_error (items (X d)) k = Some xk /\
    nth_error (items (Y d)) k = Some yk /\
    nth_error (items (X d)) (S k) = Some xk1 /\
    nth_error (items (Y d)) (S k) = Some yk1 /\
    iloc xk (Some 3) None = iloc xk1 None (Some 173) /\
    iloc xk1 (Some 173) None = iloc yk None (Some 3) /\
    iloc yk (Some 3) None = iloc yk1 None (Some 13).
Proof.
  intros Hfit. change 192 with BAR_PER_DATAPOINT in Hfit.
  pose proof BAR_PER_DATAPOINT_eq as HBAR.
  set (s := 3 * Z.of_nat k) in *.
  destruct (sampled_nth df k) as [HXk HYk]; [fold s; lia|].
  destruct (sampled_nth df (S k)) as [HXk1 HYk1]; [lia|].
  replace (3 * Z.of_nat (S k)) with (s + 3) in HXk1, HYk1 by lia.
  fold s in HXk, HYk.
  exists (sampled df), (input_rows df s), (output_rows df s),
         (input_rows df (s + 3)), (output_rows df (s + 3)).
  split; [apply sampler_long; lia|].
  split; [exact HXk|]. split; [exact HYk|].
  split; [exact HXk1|]. split; [exact HYk1|].
  unfold input_rows, output_rows. rewrite !iloc_map. constants.
  rewrite !iloc_suffix, !iloc_prefix by lia.
  assert (Hs : 0 <= s) by (subst s; lia).
  split; [|split]; do 3 f_equal; lia.
Qed.

End OverlapExtras.

(** ** Further properties of the partitioner *)

Section PartitionerExtras.

Context {price : Type}.
Implicit Types (df : DataFrame price) (d : Dataset price) (b : Bar price).

Lemma fold_concat_well_shaped (ds : list (Dataset price)) : forall a,
  well_shaped a -> well_shaped (fold_left concat ds a).
Proof.
  induction ds as [|d ds IH]; intros a Ha; [exact Ha|].
  cbn [fold_left]. apply IH. now apply concat_well_shaped.
Qed.

Lemma fold_concat_items (ds : list (Dataset price)) : forall a,
  items (X (fold_left concat ds a))
    = items (X a) ++ flat_map (fun d => items (X d)) ds /\
  items (Y (fold_left concat ds a))
    = items (Y a) ++ flat_map (fun d => items (Y d)) ds.
Proof.
  induction ds as [|d ds IH]; intros a.
  - cbn. now rewrite !app_nil_r.
  - cbn [fold_left flat_map]. destruct (IH (concat a d)) as [-> ->].
    cbn [concat X Y items]. now rewrite <- !app_assoc.
Qed.

Lemma len_flat_map {A B : Type} (f : A -> list B) (l : list A) :
  len (flat_map f l) = total (map (fun a => len (f a)) l).
Proof.
  induction l as [|a l IH]; [reflexivity|].
  cbn [flat_map map total fold_right]. rewrite len_app, IH. reflexivity.
Qed.

Lemma run_blocks_closed df : forall starts training_data validation_data,
  Forall (fun c => ~ short_slice df c) starts ->
  well_shaped training_data -> well_shaped validation_data ->
  run_blocks df starts (training_data, validation_data) =
  Ok (fold_left concat (map (fun c => sampled (training_df df c)) starts)
                training_data,
      fold_left concat (map (fun c => sampled (validation_df df c)) starts)
                validation_data).
Proof.
  induction starts as [|c starts IH]; intros t v Hall Ht Hv; [reflexivity|].
  inversion Hall as [|? ? Hc Hrest]; subst.
  unfold short_slice in Hc.
  unfold run_blocks. cbn [for_each map fold_left].
  rewrite block_body_ok by (assumption || lia). cbn [bind].
  apply IH; [assumption | now apply concat_well_shaped ..].
Qed.

(** X6. When no block of the walk has a slice of fewer than 192 rows,
    the partitioner returns, and each result holds the samples of the
    slices of the blocks, block after block in the order of the walk and
    within a block in the order of the sampler; its size is the sum over
    the blocks of [floor((rows of the slice - 192) / 3) + 1]. *)
Theorem partition_closed_form df start_date end_date :
  series_min (map OpenTime df) = Some start_date ->
  series_max (map CloseTime df) = Some end_date ->
  Forall (fun c => ~ short_slice df c) (block_starts start_date end_date) ->
  let starts := block_starts start_date end_date in
  let training_data := samples_of_blocks (training_df df) starts in
  let validation_data := samples_of_blocks (validation_df df) starts in
  split_train_validation df = Ok (training_data, validation_data) /\
  items (X training_data) =
    flat_map (fun c => items (X (sampled (training_df df c)))) starts /\
  items (Y training_data) =
    flat_map (fun c => items (Y (sampled (training_df df c)))) starts /\
  items (X validation_data) =
    flat_map (fun c => items (X (sampled (validation_df df c)))) starts /\
  items (Y validation_data) =
    flat_map (fun c => items (Y (sampled (validation_df df c)))) starts /\
  len (items (X training_data)) =
    total (map (fun c => (len (training_df df c) - 192) / 3 + 1) starts) /\
  len (items (X validation_data)) =
    total (map (fun c => (len (validation_df df c) - 192) / 3 + 1) starts).
Proof.
  intros Hmin Hmax Hall starts training_data validation_data.
  assert (Hitems : forall slice : Z -> DataFrame price,
    items (X (samples_of_blocks slice starts))
      = flat_map (fun c => items (X (sampled (slice c)))) starts /\
    items (Y (samples_of_blocks slice starts))
      = flat_map (fun c => items (Y (sampled (slice c)))) starts).
  { intros slice. unfold samples_of_blocks.
    destruct (fold_concat_items (map (fun c => sampled (slice c)) starts)
                empty_dataset) as [-> ->].
    cbn [empty_dataset np_empty0 X Y items app].
    now rewrite !flat_map_concat_map, !map_map. }
  assert (Hsize : forall slice : Z -> DataFrame price,
    Forall (fun c => BAR_PER_DATAPOINT <= len (slice c)) starts ->
    len (items (X (samples_of_blocks slice starts)))
      = total (map (fun c => (len (slice c) - 192) / 3 + 1) starts)).
  { intros slice Hlong. destruct (Hitems slice) as [-> _].
    rewrite len_flat_map. f_equal. apply map_ext_in. intros c Hc.
    rewrite Forall_forall in Hlong.
    now destruct (sampled_count (slice c) (Hlong c Hc)) as [-> _]. }
  split.
  - rewrite (split_run df start_date end_date Hmin Hmax).
    apply run_blocks_closed; [assumption | apply empty_well_shaped ..].
  - destruct (Hitems (training_df df)) as [HtX HtY].
    destruct (Hitems (validation_df df)) as [HvX HvY].
    split; [exact HtX|]. split; [exact HtY|].
    split; [exact HvX|]. split; [exact HvY|].
    split; apply Hsize; apply Forall_forall; intros c Hc;
      rewrite Forall_forall in Hall; specialize (Hall c Hc);
      unfold short_slice in Hall; lia.
Qed.

(** Within the instants a [datetime] can hold, so are both ends of the
    span and every sum the loop computes: each block start that the guard
    is evaluated at, and the instant 23 days after it. *)
Lemma walk_in_range df start_date end_date :
  series_min (map OpenTime df) = Some start_date ->
  series_max (map CloseTime df) = Some end_date ->
  in_datetime_range df ->
  datetime_min <= start_date <= datetime_max /\
  datetime_min <= end_date <= datetime_max /\
  forall k : nat,
    (k <= block_count start_date end_date)%nat ->
    datetime_min <= start_date + Timedelta_days 23 * Z.of_nat k /\
    start_date + Timedelta_days 23 * Z.of_nat k + Timedelta_days 23
      <= datetime_max.
Proof.
  intros Hmin Hmax Hrange.
  destruct (span_ends df start_date end_date Hmin Hmax)
    as [[bo [Hbo Ho]] [_ [[bc [Hbc Hc]] _]]].
  destruct (Hrange bo Hbo) as [Ho1 [Ho2 _]].
  destruct (Hrange bc Hbc) as [_ [_ [Hc1 Hc2]]].
  rewrite Ho in Ho1, Ho2. rewrite Hc in Hc1, Hc2.
  change (Timedelta_days SPLIT_PER_DAY) with 1987200000 in *.
  change (Timedelta_days 23) with 1987200000.
  split; [lia|]. split; [lia|].
  intros k Hk. destruct k as [|k]; [lia|].
  assert (Hlt : (k < block_count start_date end_date)%nat) by lia.
  apply block_count_lt_iff in Hlt.
  change (Timedelta_days SPLIT_PER_DAY) with 1987200000 in Hlt. lia.
Qed.

(** X7. On a frame with rows whose instants a [datetime] can hold,
    with 23 days to spare: the two conversions and every sum of the loop
    stay within what a [datetime] can hold; the partitioner returns
    exactly when no block of the walk has a slice of fewer than 192
    rows, raises [TypeError] exactly when one has, and raises nothing
    else: the shapes it concatenates always agree. *)
Theorem partition_outcome df start_date end_date :
  series_min (map OpenTime df) = Some start_date ->
  series_max (map CloseTime df) = Some end_date ->
  in_datetime_range df ->
  (datetime_min <= start_date <= datetime_max /\
   datetime_min <= end_date <= datetime_max /\
   forall k : nat,
     (k <= block_count start_date end_date)%nat ->
     datetime_min <= start_date + Timedelta_days 23 * Z.of_nat k /\
     start_date + Timedelta_days 23 * Z.of_nat k + Timedelta_days 23
       <= datetime_max) /\
  ((exists r, split_train_validation df = Ok r) <->
   Forall (fun c => ~ short_slice df c) (block_starts start_date end_date)) /\
  (split_train_validation df = Raise TypeError <->
   Exists (short_slice df) (block_starts start_date end_date)) /\
  (forall e, split_train_validation df = Raise e -> e = TypeError).
Proof.
  intros Hmin Hmax Hrange.
  split; [exact (walk_in_range df start_date end_date Hmin Hmax Hrange)|].
  rewrite (split_run df start_date end_date Hmin Hmax).
  destruct (run_blocks_outcome df (block_starts start_date end_date)
              empty_dataset empty_dataset)
    as [[Hex Hr]|[Hall [t [v [Hr _]]]]];
    try apply empty_well_shaped; try apply empty_paired;
    rewrite Hr.
  - split; [|split].
    + split; [intros [r Habs]; discriminate|].
      intros Hall. exfalso. apply Exists_exists in Hex as [c [Hc Hs]].
      rewrite Forall_forall in Hall. now apply (Hall c).
    + split; [intros _; exact Hex | reflexivity].
    + intros e [= <-]. reflexivity.
  - split; [|split].
    + split; [intros _; exact Hall | intros _; now exists (t, v)].
    + split; [discriminate|].
      intros Hex. exfalso. apply Exists_exists in Hex as [c [Hc Hs]].
      rewrite Forall_forall in Hall. now apply (Hall c).
    + discriminate.
Qed.

(** X8. Moving every bar by the same amount of time, within the
    instants a [datetime] can hold (23 days to spare) before and after
    the move, changes neither result of the partitioner: the two ends of
    the span and the block starts move by that amount, staying within
    what a [datetime] can hold, and the slices of the moved frame are the
    moved slices, block for block. *)
Theorem partition_time_invariant (t : Z) df :
  in_datetime_range df ->
  in_datetime_range (map (shift_time t) df) ->
  split_train_validation (map (shift_time t) df) = split_train_validation df
  /\
  (forall start_date end_date,
     series_min (map OpenTime df) = Some start_date ->
     series_max (map CloseTime df) = Some end_date ->
     series_min (map OpenTime (map (shift_time t) df))
       = Some (t + start_date) /\
     series_max (map CloseTime (map (shift_time t) df))
       = Some (t + end_date) /\
     block_starts (t + start_date) (t + end_date)
       = map (Z.add t) (block_starts start_date end_date) /\
     (forall c, In c (block_starts start_date end_date) ->
                datetime_min <= c /\
                c + Timedelta_days 23 <= datetime_max) /\
     (forall c, In c (block_starts (t + start_date) (t + end_date)) ->
                datetime_min <= c /\
                c + Timedelta_days 23 <= datetime_max)) /\
  (forall cursor,
     training_df (map (shift_time t) df) (t + cursor)
       = map (shift_time t) (training_df df cursor) /\
     validation_df (map (shift_time t) df) (t + cursor)
       = map (shift_time t) (validation_df df cursor)).
Proof.
  intros Hrange Hmoved.
  split; [apply split_shift|]. split.
  - intros s e Hmin Hmax.
    assert (Hmin' : series_min (map OpenTime (map (shift_time t) df))
                    = Some (t + s)).
    { rewrite map_map.
      change (map (fun b => OpenTime (shift_time t b)) df)
        with (map (fun b => t + OpenTime b) df).
      now rewrite <- (map_map OpenTime (Z.add t)), series_min_shift, Hmin. }
    assert (Hmax' : series_max (map CloseTime (map (shift_time t) df))
                    = Some (t + e)).
    { rewrite map_map.
      change (map (fun b => CloseTime (shift_time t b)) df)
        with (map (fun b => t + CloseTime b) df).
      now rewrite <- (map_map CloseTime (Z.add t)), series_max_shift, Hmax. }
    split; [exact Hmin'|]. split; [exact Hmax'|].
    split; [apply block_starts_shift|].
    split; intros c Hc; apply in_block_starts in Hc as [k [-> Hk]].
    + destruct (walk_in_range _ _ _ Hmin Hmax Hrange) as [_ [_ Hsums]].
      apply (Hsums k). lia.
    + destruct (walk_in_range _ _ _ Hmin' Hmax' Hmoved) as [_ [_ Hsums]].
      apply (Hsums k). lia.
  - intros cursor. split;
      [apply training_df_shift | apply validation_df_shift].
Qed.

Lemma in_iloc {A : Type} (l : list A) lo hi x : In x (iloc l lo hi) -> In x l.
Proof.
  unfold iloc. intros H.
  set (n := Z.to_nat (slice_bound (len l) (len l) hi
                      - slice_bound (len l) 0 lo)) in *.
  set (a := Z.to_nat (slice_bound (len l) 0 lo)) in *.
  rewrite <- (firstn_skipn a l). apply in_or_app. right.
  rewrite <- (firstn_skipn n (skipn a l)). apply in_or_app. now left.
Qed.

(** X9. No bar that closes no earlier than it opens is used twice by
    the partitioner: it is not in the training slice of one block and the
    validation slice of the same or of another block, and not in the same
    kind of slice of two blocks. Every bar of every window cut out of a
    slice lies inside the time range of that slice. *)
Theorem slices_share_no_bar df start_date end_date c c' b :
  OpenTime b <= CloseTime b ->
  In c (block_starts start_date end_date) ->
  In c' (block_starts start_date end_date) ->
  (In b (training_df df c) -> ~ In b (validation_df df c')) /\
  (c <> c' -> In b (training_df df c) -> ~ In b (training_df df c')) /\
  (c <> c' -> In b (validation_df df c) -> ~ In b (validation_df df c')) /\
  (forall lo hi x,
     In x (iloc (training_df df c) lo hi) ->
     c <= OpenTime x /\ CloseTime x < c + Timedelta_days 20) /\
  (forall lo hi x,
     In x (iloc (validation_df df c) lo hi) ->
     c + Timedelta_days 20 <= OpenTime x /\
     CloseTime x < c + Timedelta_days 23).
Proof.
  intros Hbar Hc Hc'.
  apply in_block_starts in Hc as [k [-> _]].
  apply in_block_starts in Hc' as [k' [-> _]].
  change (Timedelta_days SPLIT_PER_DAY) with 1987200000.
  assert (HT : Timedelta_days TRAINING_DAY = 1728000000) by reflexivity.
  assert (HB : Timedelta_days SPLIT_PER_DAY = 1987200000) by reflexivity.
  change (Timedelta_days 20) with 1728000000.
  change (Timedelta_days 23) with 1987200000.
  split; [|split; [|split; [|split]]].
  - intros Ht Hv. apply in_training_df in Ht. apply in_validation_df in Hv.
    rewrite HT, ?HB in *. lia.
  - intros Hne Ht Ht'. apply in_training_df in Ht, Ht'.
    rewrite HT in *. assert (k <> k') by (intros ->; now apply Hne). lia.
  - intros Hne Hv Hv'. apply in_validation_df in Hv, Hv'.
    rewrite HT, HB in *. assert (k <> k') by (intros ->; now apply Hne). lia.
  - intros lo hi x Hx. apply in_iloc, in_training_df in Hx.
    rewrite HT in Hx. lia.
  - intros lo hi x Hx. apply in_iloc, in_validation_df in Hx.
    rewrite HT, HB in Hx. lia.
Qed.

End PartitionerExtras.

(** ** The further properties at concrete frames *)

Lemma sampler_reads_prices_only_200 :
  map values_2_6 retimed_200 = map values_2_6 bars_200 /\
  map OpenTime retimed_200 <> map OpenTime bars_200 /\
  sliding_window_sample_datapoints retimed_200 =
  sliding_window_sample_datapoints bars_200.
Proof.
  assert (H : map values_2_6 retimed_200 = map values_2_6 bars_200)
    by (vm_compute; reflexivity).
  split; [exact H|]. split; [vm_compute; discriminate|].
  exact (sampler_reads_prices_only retimed_200 bars_200 H).
Defined.

Lemma sampler_append_192 :
  192 <= len bars_192 /\
  exists later : Dataset Z,
    sliding_window_sample_datapoints (bars_192 ++ bars_200) =
      Ok (IsDataset (concat (sampled bars_192) later)) /\
    len (items (X later)) = 66.
Proof.
  assert (H : 192 <= len bars_192) by (vm_compute; discriminate).
  split; [exact H|].
  destruct (sampler_append bars_192 bars_200 H)
    as [later [_ [Happ [_ [_ Hlen]]]]].
  exists later. split; [exact Happ | exact Hlen].
Defined.

Lemma sampler_drops_remainder_200 :
  192 <= len bars_200 /\
  rows_used (len bars_200) = 198 /\
  sliding_window_sample_datapoints (iloc bars_200 None (Some 198)) =
  sliding_window_sample_datapoints bars_200.
Proof.
  assert (H : 192 <= len bars_200) by (vm_compute; discriminate).
  split; [exact H|]. split; [reflexivity|].
  destruct (sampler_drops_remainder bars_200 H) as [_ [_ [Hsame _]]].
  exact Hsame.
Defined.

Lemma consecutive_samples_overlap_200 :
  3 * Z.of_nat 0 + 3 + 192 <= len bars_200 /\
  exists d xk xk1,
    sliding_window_sample_datapoints bars_200 = Ok (IsDataset d) /\
    nth_error (items (X d)) 0 = Some xk /\
    nth_error (items (X d)) 1 = Some xk1 /\
    iloc xk (Some 3) None = iloc xk1 None (Some 173).
Proof.
  assert (H : 3 * Z.of_nat 0 + 3 + 192 <= len bars_200)
    by (vm_compute; discriminate).
  split; [exact H|].
  destruct (consecutive_samples_overlap bars_200 0 H)
    as [d [xk [yk [xk1 [yk1 [Hd [HX [_ [HX1 [_ [Hov _]]]]]]]]]]].
  exists d, xk, xk1. repeat split; assumption.
Defined.

Lemma kline_2209_no_short_slice :
  series_min (map OpenTime (kline_bars_2209 0)) = Some 0 /\
  series_max (map CloseTime (kline_bars_2209 0)) = Some 1988099999 /\
  block_starts 0 1988099999 = [0] /\
  Forall (fun c => ~ short_slice (kline_bars_2209 0) c)
         (block_starts 0 1988099999).
Proof.
  destruct (summary_fields _ _ _ kline_2209_summary_0)
    as [Hmin [Hmax [Ht [Hv _]]]].
  cbn [first_open last_close training_rows validation_rows] in *.
  split; [exact Hmin|]. split; [exact Hmax|]. split; [reflexivity|].
  change (block_starts 0 1988099999) with [0].
  constructor; [|constructor].
  unfold short_slice. rewrite Ht, Hv. intros [H|H]; discriminate H.
Qed.

Lemma partition_closed_form_2209 :
  Forall (fun c => ~ short_slice (kline_bars_2209 0) c)
         (block_starts 0 1988099999) /\
  split_train_validation (kline_bars_2209 0) =
    Ok (samples_of_blocks (training_df (kline_bars_2209 0)) [0],
        samples_of_blocks (validation_df (kline_bars_2209 0)) [0]).
Proof.
  destruct kline_2209_no_short_slice as [Hmin [Hmax [_ Hall]]].
  split; [exact Hall|].
  exact (proj1 (partition_closed_form (kline_bars_2209 0) 0 1988099999
                  Hmin Hmax Hall)).
Defined.

Lemma synthetic_in_range n t0 width :
  datetime_min <= t0 -> 0 <= width ->
  t0 + minutes_15 * Z.of_nat n + width + Timedelta_days 23 <= datetime_max ->
  in_datetime_range (synthetic_bars n t0 width).
Proof.
  intros Hlo Hw Hhi b Hb. unfold synthetic_bars in Hb.
  apply in_map_iff in Hb as [i [<- Hi]]. apply in_seq in Hi.
  cbn [OpenTime CloseTime].
  change (Timedelta_days SPLIT_PER_DAY) with (Timedelta_days 23).
  unfold minutes_15 in *. lia.
Qed.

Lemma partition_outcome_2209 :
  in_datetime_range (kline_bars_2209 0) /\
  (Forall (fun c => ~ short_slice (kline_bars_2209 0) c)
          (block_starts 0 1988099999)) /\
  exists r, split_train_validation (kline_bars_2209 0) = Ok r.
Proof.
  destruct kline_2209_no_short_slice as [Hmin [Hmax [_ Hall]]].
  assert (Hrange : in_datetime_range (kline_bars_2209 0))
    by (apply synthetic_in_range; vm_compute; discriminate).
  split; [exact Hrange|]. split; [exact Hall|].
  destruct (partition_outcome (kline_bars_2209 0) 0 1988099999
              Hmin Hmax Hrange) as [_ [[_ Hreturns] _]].
  exact (Hreturns Hall).
Defined.

Lemma slices_share_no_bar_seam :
  let b := mkBar 0 minutes_15 1 2 3 4 in
  OpenTime b <= CloseTime b /\
  In 0 (block_starts 0 (Timedelta_days 23 + minutes_15)) /\
  In b (training_df seam_bars 0) /\
  ~ In b (validation_df seam_bars 0).
Proof.
  intros b.
  assert (Hbar : OpenTime b <= CloseTime b) by (vm_compute; discriminate).
  assert (Hin : In 0 (block_starts 0 (Timedelta_days 23 + minutes_15)))
    by (left; reflexivity).
  assert (Ht : In b (training_df seam_bars 0)) by (left; reflexivity).
  split; [exact Hbar|]. split; [exact Hin|]. split; [exact Ht|].
  destruct (slices_share_no_bar seam_bars 0 (Timedelta_days 23 + minutes_15)
              0 0 b Hbar Hin Hin) as [Hdisjoint _].
  exact (Hdisjoint Ht).
Defined.

Section UnusedBars.

Context {price : Type}.
Implicit Types (df : DataFrame price) (d : Dataset price) (b : Bar price).

Lemma total_lower_bound (zs : list Z) :
  Forall (fun z => 1 <= z) zs -> len zs <= total zs.
Proof.
  induction 1 as [|z zs Hz _ IH]; [reflexivity|].
  unfold len in *. cbn [length total fold_right] in *.
  fold (total zs). lia.
Qed.

(** X11. When the partitioner returns, each result holds at least one
    sample per block of the walk; so a result is empty exactly when the
    span of the frame is shorter than 23 days. *)
Theorem partition_sizes_lower_bound df start_date end_date
    training_data validation_data :
  series_min (map OpenTime df) = Some start_date ->
  series_max (map CloseTime df) = Some end_date ->
  split_train_validation df = Ok (training_data, validation_data) ->
  Z.of_nat (block_count start_date end_date) <= len (items (X training_data))
  /\
  Z.of_nat (block_count start_date end_date)
    <= len (items (X validation_data)) /\
  (len (items (X training_data)) = 0 <->
   end_date - start_date < Timedelta_days 23) /\
  (len (items (X validation_data)) = 0 <->
   end_date - start_date < Timedelta_days 23).
Proof.
  intros Hmin Hmax Hr.
  rewrite (split_run df start_date end_date Hmin Hmax) in Hr.
  set (starts := block_starts start_date end_date) in *.
  assert (Hall : Forall (fun c => ~ short_slice df c) starts).
  { destruct (run_blocks_outcome df starts empty_dataset empty_dataset)
      as [[_ Habs]|[Hall _]];
      try apply empty_well_shaped; try apply empty_paired;
      [rewrite Hr in Habs; discriminate | exact Hall]. }
  rewrite run_blocks_closed in Hr
    by (assumption || apply empty_well_shaped).
  injection Hr as <- <-.
  assert (Hcount : len starts = Z.of_nat (block_count start_date end_date)).
  { subst starts. unfold block_starts. rewrite len_map. unfold len.
    now rewrite length_seq. }
  assert (Hsize : forall slice : Z -> DataFrame price,
    Forall (fun c => BAR_PER_DATAPOINT <= len (slice c)) starts ->
    len starts <=
    len (items (X (fold_left concat (map (fun c => sampled (slice c)) starts)
                             empty_dataset)))).
  { intros slice Hlong.
    destruct (fold_concat_items (map (fun c => sampled (slice c)) starts)
                empty_dataset) as [-> _].
    cbn [empty_dataset np_empty0 X items app].
    rewrite flat_map_concat_map, map_map, <- flat_map_concat_map.
    rewrite len_flat_map.
    rewrite <- (len_map (fun c => len (items (X (sampled (slice c))))) starts).
    apply total_lower_bound. apply Forall_map, Forall_forall. intros c Hc.
    rewrite Forall_forall in Hlong.
    destruct (sampled_count (slice c) (Hlong c Hc)) as [-> _].
    pose proof (window_count_nonneg _ (Hlong c Hc)). lia. }
  assert (Ht : Forall (fun c => BAR_PER_DATAPOINT <= len (training_df df c))
                      starts).
  { apply Forall_forall. intros c Hc. rewrite Forall_forall in Hall.
    specialize (Hall c Hc). unfold short_slice in Hall. lia. }
  assert (Hv : Forall (fun c => BAR_PER_DATAPOINT <= len (validation_df df c))
                      starts).
  { apply Forall_forall. intros c Hc. rewrite Forall_forall in Hall.
    specialize (Hall c Hc). unfold short_slice in Hall. lia. }
  pose proof (Hsize _ Ht) as Lt. pose proof (Hsize _ Hv) as Lv.
  rewrite Hcount in Lt, Lv.
  assert (Hzero : block_count start_date end_date = O <->
                  end_date - start_date < Timedelta_days 23).
  { pose proof (block_count_lt_iff start_date end_date 0) as H0.
    change SPLIT_PER_DAY with 23 in H0. cbn [Z.of_nat] in H0. lia. }
  assert (Hnil : block_count start_date end_date = O -> starts = []).
  { intros H0. subst starts. unfold block_starts. now rewrite H0. }
  split; [exact Lt|]. split; [exact Lv|]. split.
  - rewrite <- Hzero. split; [lia|].
    intros H0. now rewrite (Hnil H0).
  - rewrite <- Hzero. split; [lia|].
    intros H0. now rewrite (Hnil H0).
Qed.

Lemma filter_overwrite_where (P : Bar price -> bool) (p : price)
    (keep : Z -> Z -> bool) df :
  (forall b, In b df -> P b = true ->
             keep (OpenTime b) (CloseTime b) = false) ->
  filter (fun b => keep (OpenTime b) (CloseTime b)) (overwrite_where P p df) =
  filter (fun b => keep (OpenTime b) (CloseTime b)) df.
Proof.
  induction df as [|b df IH]; intros Hkeep; [reflexivity|].
  cbn [overwrite_where map filter]. fold (overwrite_where P p df).
  rewrite IH by (intros b' Hb'; apply Hkeep; now right).
  destruct (P b) eqn:HP; [|reflexivity].
  cbn [OpenTime CloseTime]. now rewrite (Hkeep b (or_introl eq_refl) HP).
Qed.

Lemma overwrite_where_times (P : Bar price -> bool) (p : price) df :
  map OpenTime (overwrite_where P p df) = map OpenTime df /\
  map CloseTime (overwrite_where P p df) = map CloseTime df.
Proof.
  unfold overwrite_where. rewrite !map_map.
  split; apply map_ext; intros b; now destruct (P b).
Qed.

(** X12. The prices of a bar that is in no slice of a block of the walk
    have no influence: overwriting them in any set of such bars changes
    nothing in what the partitioner returns or raises. *)
Theorem unused_bars_do_not_matter df start_date end_date
    (P : Bar price -> bool) (p : price) :
  series_min (map OpenTime df) = Some start_date ->
  series_max (map CloseTime df) = Some end_date ->
  (forall b c,
     In b df -> P b = true -> In c (block_starts start_date end_date) ->
     ~ In b (training_df df c) /\ ~ In b (validation_df df c)) ->
  split_train_validation (overwrite_where P p df) = split_train_validation df.
Proof.
  intros Hmin Hmax Hunused.
  destruct (overwrite_where_times P p df) as [HO HC].
  rewrite (split_run df start_date end_date Hmin Hmax).
  rewrite (split_run (overwrite_where P p df) start_date end_date)
    by (rewrite ?HO, ?HC; assumption).
  apply for_each_ext_in. intros c acc Hc.
  unfold block_body, training_df, validation_df.
  rewrite (filter_overwrite_where P p
             (fun o t => (c <=? o) && (t <? c + Timedelta_days TRAINING_DAY))).
  - rewrite (filter_overwrite_where P p
               (fun o t => (c + Timedelta_days TRAINING_DAY <=? o)
                           && (t <? c + Timedelta_days SPLIT_PER_DAY))).
    + reflexivity.
    + intros b Hb HP. destruct (Hunused b c Hb HP Hc) as [_ Hv].
      apply not_true_is_false. intros Hk. apply Hv.
      unfold validation_df. apply filter_In. now split.
  - intros b Hb HP. destruct (Hunused b c Hb HP Hc) as [Ht _].
    apply not_true_is_false. intros Hk. apply Ht.
    unfold training_df. apply filter_In. now split.
Qed.

End UnusedBars.

Lemma partition_sizes_lower_bound_2209 :
  exists training_data validation_data,
    split_train_validation (kline_bars_2209 0)
      = Ok (training_data, validation_data) /\
    Z.of_nat (block_count 0 1988099999) <= len (items (X training_data)) /\
    Z.of_nat (block_count 0 1988099999) <= len (items (X validation_data)).
Proof.
  destruct kline_2209_no_short_slice as [Hmin [Hmax _]].
  destruct (summary_fields _ _ _ kline_2209_summary_0)
    as [_ [_ [_ [_ Hsizes]]]].
  destruct (split_train_validation (kline_bars_2209 0))
    as [[training_data validation_data]|e] eqn:Hr; [|discriminate Hsizes].
  exists training_data, validation_data.
  destruct (partition_sizes_lower_bound (kline_bars_2209 0) 0 1988099999
              training_data validation_data Hmin Hmax Hr) as [Ht [Hv _]].
  split; [reflexivity|]. split; [exact Ht | exact Hv].
Defined.

Lemma seam_bar_unused (t0 : Z) (b : Bar Z) (c : Z) :
  In b (exact_span_bars t0) -> closes_at_seam t0 b = true ->
  In c [t0] ->
  ~ In b (training_df (exact_span_bars t0) c) /\
  ~ In b (validation_df (exact_span_bars t0) c).
Proof.
  intros Hb Hseam [<-|[]].
  unfold closes_at_seam in Hseam. apply Z.eqb_eq in Hseam.
  unfold exact_span_bars, synthetic_bars in Hb.
  apply in_map_iff in Hb as [i [<- _]].
  cbn [CloseTime] in Hseam.
  assert (HT : Timedelta_days TRAINING_DAY = Timedelta_days 20)
    by reflexivity.
  split; intros Hin;
    [apply in_training_df in Hin | apply in_validation_df in Hin];
    cbn [OpenTime CloseTime] in Hin; rewrite HT in Hin;
    unfold minutes_15 in *; lia.
Qed.

Lemma unused_bars_do_not_matter_seam :
  (exists b, In b (exact_span_bars 0) /\ closes_at_seam 0 b = true) /\
  split_train_validation
    (overwrite_where (closes_at_seam 0) 7 (exact_span_bars 0))
  = split_train_validation (exact_span_bars 0).
Proof.
  destruct (summary_fields _ _ _ exact_span_summary_0)
    as [Hmin [Hmax _]].
  cbn [first_open last_close] in Hmin, Hmax.
  split.
  - exists (mkBar (Timedelta_days 20 - minutes_15) (Timedelta_days 20)
                  1919 0 0 0).
    split; [|reflexivity].
    unfold exact_span_bars, synthetic_bars. apply in_map_iff.
    exists 1919%nat. split; [reflexivity|]. apply in_seq. lia.
  - apply (unused_bars_do_not_matter (exact_span_bars 0) 0
             (Timedelta_days 23) (closes_at_seam 0) 7 Hmin Hmax).
    intros b c Hb HP Hc.
    apply (seam_bar_unused 0 b c Hb HP).
    exact Hc.
Defined.

Lemma partition_time_invariant_2209 :
  let t := 1700000000000 in
  in_datetime_range (kline_bars_2209 0) /\
  in_datetime_range (map (shift_time t) (kline_bars_2209 0)) /\
  block_starts (t + 0) (t + 1988099999) = [t] /\
  len (training_df (map (shift_time t) (kline_bars_2209 0)) (t + 0)) = 1920 /\
  len (validation_df (map (shift_time t) (kline_bars_2209 0)) (t + 0)) = 288 /\
  sizes (split_train_validation (map (shift_time t) (kline_bars_2209 0)))
    = Some (577, 33) /\
  split_train_validation (map (shift_time t) (kline_bars_2209 0))
    = split_train_validation (kline_bars_2209 0).
Proof.
  intros t.
  destruct (summary_fields _ _ _ kline_2209_summary_0)
    as [_ [_ [Ht [Hv Hsizes]]]].
  cbn [training_rows validation_rows result_sizes] in Ht, Hv, Hsizes.
  assert (Hrange : in_datetime_range (kline_bars_2209 0))
    by (apply synthetic_in_range; vm_compute; discriminate).
  assert (Hmoved : in_datetime_range (map (shift_time t) (kline_bars_2209 0))).
  { unfold kline_bars_2209. rewrite <- synthetic_bars_shift.
    apply synthetic_in_range; vm_compute; discriminate. }
  destruct (partition_time_invariant t (kline_bars_2209 0) Hrange Hmoved)
    as [Hsame [_ Hslices]].
  destruct (Hslices 0) as [Htrain Hval].
  split; [exact Hrange|]. split; [exact Hmoved|]. split; [reflexivity|].
  split; [rewrite Htrain, len_map; exact Ht|].
  split; [rewrite Hval, len_map; exact Hv|].
  split; [rewrite Hsame; exact Hsizes | exact Hsame].
Defined.
